(** * The Windows runner window of Rune: [windows/runner/flutter_window.cpp]

    A shallow embedding of [FlutterWindow] (constructor, [OnCreate],
    [OnDestroy], [MessageHandler] and the method-call handler installed on
    the channel "ci.not.rune/snap"), and the properties of its message
    relay and of its control channel.

    The window is glue between two collaborators that are not part of the
    file: the base class [Win32Window] with the Win32 API, and the Flutter
    embedder ([FlutterViewController], its engine and view).  Every call
    into them is a constructor of [Extern]; what such a call returns and
    what it does to the rest of the process is decided by a [Platform],
    over which all theorems are quantified.  The calls made are recorded,
    in order, in a log. *)

From Stdlib Require Import ZArith String.
From stdpp Require Import base gmap strings list.

Local Open Scope string_scope.
Local Open Scope list_scope.
Local Open Scope Z_scope.

(** ** Win32 data *)

Definition HWND := Z.
Definition UINT := Z.
Definition WPARAM := Z.
Definition LPARAM := Z.
Definition LRESULT := Z.

(** Message numbers and the hit-test code, as in <WinUser.h>. *)
Definition WM_FONTCHANGE : UINT := 0x001D.
Definition WM_NCCALCSIZE : UINT := 0x0083.
Definition WM_NCHITTEST : UINT := 0x0084.
Definition HTMAXBUTTON : LRESULT := 9.

Record RECT := mkRECT {
  rc_left : Z;
  rc_top : Z;
  rc_right : Z;
  rc_bottom : Z
}.

(** [LONG] arithmetic is 32 bits wide, two's complement. *)
Definition int32 (z : Z) : Z := (z + 2 ^ 31) mod 2 ^ 32 - 2 ^ 31.

(** ** Memory

    Byte-addressed and partial: an address is mapped to the byte it
    holds, or not mapped at all. *)

(** [(T* )p] for a pointer-sized integer [p]: 64 bits, unsigned. *)
Definition ptr (p : Z) : Z := p mod 2 ^ 64.

(** Byte [i] of a value, least significant first. *)
Definition byte_of (v : Z) (i : Z) : Z := (v / 256 ^ i) mod 256.

(** The four bytes of a [LONG] put at [a .. a+3]. *)
Definition write_LONG (mem : gmap Z Z) (a : Z) (v : Z) : gmap Z Z :=
  <[a + 3 := byte_of v 3]>
    (<[a + 2 := byte_of v 2]>
       (<[a + 1 := byte_of v 1]>
          (<[a := byte_of v 0]> mem))).

(** [*(LONG* )a = v]: the store goes through whatever is at [a];
    it fails only where one of the four bytes is not mapped. *)
Definition store_LONG (mem : gmap Z Z) (a : Z) (v : Z)
  : option (gmap Z Z) :=
  match mem !! a, mem !! (a + 1), mem !! (a + 2), mem !! (a + 3) with
  | Some _, Some _, Some _, Some _ => Some (write_LONG mem a v)
  | _, _, _, _ => None
  end.

(** [*(LONG* )a]. *)
Definition load_LONG (mem : gmap Z Z) (a : Z) : option Z :=
  match mem !! a, mem !! (a + 1), mem !! (a + 2), mem !! (a + 3) with
  | Some b0, Some b1, Some b2, Some b3 =>
      Some (int32 (b0 + 256 * b1 + 65536 * b2 + 16777216 * b3))
  | _, _, _, _ => None
  end.

(** [*(RECT* )a]: [left], [top], [right], [bottom] at offsets 0, 4, 8
    and 12.  In [NCCALCSIZE_PARAMS] the array [rgrc] comes first, so a
    pointer to the parameters is a pointer to [rgrc[0]], and
    [rgrc[0].top] is at offset 4; when [wparam] is FALSE the message
    carries a bare [RECT] at the same place. *)
Definition load_RECT (mem : gmap Z Z) (a : Z) : option RECT :=
  match load_LONG mem a, load_LONG mem (a + 4),
        load_LONG mem (a + 8), load_LONG mem (a + 12) with
  | Some l, Some t, Some r, Some b => Some (mkRECT l t r b)
  | _, _, _, _ => None
  end.

Definition write_RECT (mem : gmap Z Z) (a : Z) (rc : RECT) : gmap Z Z :=
  write_LONG
    (write_LONG
       (write_LONG (write_LONG mem a (rc_left rc)) (a + 4) (rc_top rc))
       (a + 8) (rc_right rc))
    (a + 12) (rc_bottom rc).

(** The top inset of a client rectangle within a window rectangle:
    how far the client area starts below the window's top edge. *)
Definition top_inset (window_rect client_rect : RECT) : Z :=
  rc_top client_rect - rc_top window_rect.

(** ** Flutter embedder data *)

Definition DartProject := string.

Record FlutterEngine := mkFlutterEngine {
  engine_id : Z;
  messenger : Z
}.

Record FlutterView := mkFlutterView {
  view_id : Z;
  GetNativeWindow : HWND
}.

(** [engine()] and [view()] return pointers that are null when the
    controller failed to set itself up. *)
Record FlutterViewController := mkFlutterViewController {
  controller_id : Z;
  engine : option FlutterEngine;
  view : option FlutterView
}.

(** ** Calls that leave the file

    Indexed by the type of what the call returns. *)
Inductive Extern : Type -> Type :=
| Win32Window_OnCreate : Extern bool
| Win32Window_OnDestroy : Extern unit
| Win32Window_MessageHandler (hwnd : HWND) (message : UINT)
    (wparam : WPARAM) (lparam : LPARAM) : Extern LRESULT
| GetClientArea : Extern RECT
| SetChildContent (content : HWND) : Extern unit
| Show : Extern bool
| DefWindowProc (hwnd : HWND) (message : UINT)
    (wparam : WPARAM) (lparam : LPARAM) : Extern LRESULT
| FlutterViewController_new (width height : Z) (project : DartProject)
    : Extern FlutterViewController
| FlutterViewController_delete (fc : FlutterViewController) : Extern unit
| HandleTopLevelWindowProc (fc : FlutterViewController) (hwnd : HWND)
    (message : UINT) (wparam : WPARAM) (lparam : LPARAM)
    : Extern (option LRESULT)
| ForceRedraw (fc : FlutterViewController) : Extern unit
| RegisterPlugins (e : FlutterEngine) : Extern unit
| SetNextFrameCallback (e : FlutterEngine) : Extern unit
| ReloadSystemFonts (e : FlutterEngine) : Extern unit
| SetMethodCallHandler (messenger : Z) (channel : string) : Extern unit
| MethodResult_Success : Extern unit
| MethodResult_NotImplemented : Extern unit.

(** A call together with what it returned. *)
Inductive Event : Type :=
| Called {A : Type} (c : Extern A) (r : A).

(** ** The window object *)

Record FlutterWindow := mkFlutterWindow {
  flutter_controller_ : option FlutterViewController;
  maximum_button_hover_ : bool;
  project_ : DartProject
}.

(** [FlutterWindow::FlutterWindow]: the hover flag and the project are
    initialised; the [unique_ptr] member starts out null. *)
Definition FlutterWindow_new (project : DartProject) : FlutterWindow :=
  {| flutter_controller_ := None;
     maximum_button_hover_ := false;
     project_ := project |}.

(** ** The rest of the process

    The memory that message parameters point into, and whatever else
    the operating system and the engine keep ([Ext]). *)
Record Machine (Ext : Type) := mkMachine {
  memory : gmap Z Z;
  ext : Ext
}.
Arguments mkMachine {Ext} _ _.
Arguments memory {Ext} _.
Arguments ext {Ext} _.

Class Platform (Ext : Type) := {
  extern : forall A : Type, Extern A -> Machine Ext -> A * Machine Ext
}.
Arguments extern {Ext _ A} _ _.

Record State (Ext : Type) := mkState {
  window : FlutterWindow;
  machine : Machine Ext;
  log : list Event
}.
Arguments mkState {Ext} _ _ _.
Arguments window {Ext} _.
Arguments machine {Ext} _.
Arguments log {Ext} _.

(** ** Computations: state, with faults for what C++ leaves undefined *)

Inductive Error := NullDereference | InvalidPointer.

Inductive Outcome (S A : Type) :=
| Done (a : A) (s : S)
| Fault (e : Error).
Arguments Done {S A} _ _.
Arguments Fault {S A} _.

Definition M (Ext A : Type) : Type := State Ext -> Outcome (State Ext) A.

Definition ret {Ext A} (a : A) : M Ext A := fun s => Done a s.

Definition bind {Ext A B} (m : M Ext A) (k : A -> M Ext B) : M Ext B :=
  fun s => match m s with
           | Done a s' => k a s'
           | Fault e => Fault e
           end.

Notation "'let*' x ':=' m 'in' k" := (bind m (fun x => k))
  (at level 10, x pattern, m at level 100, k at level 200).
Notation "m '>>' k" := (bind m (fun _ => k))
  (at level 100, k at level 200, right associativity).

Section Window.
Context {Ext : Type} {P : Platform Ext}.

Definition this_ : M Ext FlutterWindow := fun s => Done (window s) s.

Definition set_flutter_controller (p : option FlutterViewController)
  : M Ext unit :=
  fun s => Done tt
    (mkState
       {| flutter_controller_ := p;
          maximum_button_hover_ := maximum_button_hover_ (window s);
          project_ := project_ (window s) |}
       (machine s) (log s)).

Definition set_maximum_button_hover (b : bool) : M Ext unit :=
  fun s => Done tt
    (mkState
       {| flutter_controller_ := flutter_controller_ (window s);
          maximum_button_hover_ := b;
          project_ := project_ (window s) |}
       (machine s) (log s)).

(** A call out of the file: the platform answers, the log grows. *)
Definition call {A} (c : Extern A) : M Ext A :=
  fun s => let '(r, m) := extern c (machine s) in
           Done r (mkState (window s) m (log s ++ [Called c r])).

(** [p->]: following a null pointer is a fault. *)
Definition deref {A} (p : option A) : M Ext A :=
  fun s => match p with
           | Some a => Done a s
           | None => Fault NullDereference
           end.

(** [((LPNCCALCSIZE_PARAMS)addr)->rgrc[0].top = v]: a [LONG] stored
    four bytes past where [addr] points, with no test of what is
    there. *)
Definition store_rgrc0_top (addr : LPARAM) (v : Z) : M Ext unit :=
  fun s => match store_LONG (memory (machine s)) (ptr addr + 4) v with
           | Some mem' =>
               Done tt
                 (mkState (window s)
                    (mkMachine mem' (ext (machine s)))
                    (log s))
           | None => Fault InvalidPointer
           end.

(** [flutter_controller_ = p] on the [unique_ptr]: the member takes the
    new pointer, then the controller it held, if any, is destroyed. *)
Definition assign_flutter_controller (p : option FlutterViewController)
  : M Ext unit :=
  let* this := this_ in
  set_flutter_controller p >>
  match flutter_controller_ this with
  | Some old => call (FlutterViewController_delete old)
  | None => ret tt
  end.

(** The handler that [OnCreate] installs on the channel (the lambda of
    lines 40-52); [result->Success()] and [result->NotImplemented()] are
    the answers sent back. *)
Definition method_call_handler (method_name : string) : M Ext unit :=
  if String.eqb method_name "maximumButtonEnter" then
    set_maximum_button_hover true >>
    call MethodResult_Success
  else if String.eqb method_name "maximumButtonExit" then
    set_maximum_button_hover false >>
    call MethodResult_Success
  else
    call MethodResult_NotImplemented.

(** The callback that [OnCreate] registers for the next frame (lines
    56-58). *)
Definition next_frame_callback : M Ext unit :=
  let* _ := call Show in ret tt.

(** [FlutterWindow::OnCreate], lines 19-66. *)
Definition OnCreate : M Ext bool :=
  let* ok := call Win32Window_OnCreate in
  if negb ok then ret false
  else
    let* frame := call GetClientArea in
    let* this := this_ in
    let* fc := call (FlutterViewController_new
                       (int32 (rc_right frame - rc_left frame))
                       (int32 (rc_bottom frame - rc_top frame))
                       (project_ this)) in
    assign_flutter_controller (Some fc) >>
    let* this := this_ in
    let* fc := deref (flutter_controller_ this) in
    match engine fc, view fc with
    | Some e, Some v =>
        call (RegisterPlugins e) >>
        call (SetMethodCallHandler (messenger e) "ci.not.rune/snap") >>
        call (SetChildContent (GetNativeWindow v)) >>
        call (SetNextFrameCallback e) >>
        call (ForceRedraw fc) >>
        ret true
    | _, _ => ret false
    end.

(** [FlutterWindow::OnDestroy], lines 68-74. *)
Definition OnDestroy : M Ext unit :=
  let* this := this_ in
  match flutter_controller_ this with
  | Some _ => assign_flutter_controller None
  | None => ret tt
  end >>
  call Win32Window_OnDestroy.

(** [FlutterWindow::MessageHandler], lines 76-111.  A [return] inside
    the [switch] ends the computation; a [break] goes on to the base
    handler. *)
Definition MessageHandler (hwnd : HWND) (message : UINT)
    (wparam : WPARAM) (lparam : LPARAM) : M Ext LRESULT :=
  let* this := this_ in
  let* result :=
    match flutter_controller_ this with
    | Some fc =>
        call (HandleTopLevelWindowProc fc hwnd message wparam lparam)
    | None => ret None
    end in
  match result with
  | Some r => ret r
  | None =>
      if message =? WM_FONTCHANGE then
        let* this := this_ in
        let* fc := deref (flutter_controller_ this) in
        let* e := deref (engine fc) in
        call (ReloadSystemFonts e) >>
        call (Win32Window_MessageHandler hwnd message wparam lparam)
      else if message =? WM_NCCALCSIZE then
        let* result := call (DefWindowProc hwnd WM_NCCALCSIZE
                                           wparam lparam) in
        store_rgrc0_top lparam 56 >>
        ret result
      else if message =? WM_NCHITTEST then
        let* this := this_ in
        if maximum_button_hover_ this then ret HTMAXBUTTON
        else call (Win32Window_MessageHandler hwnd message wparam lparam)
      else
        call (Win32Window_MessageHandler hwnd message wparam lparam)
  end.

(** The opening step of [MessageHandler] (lines 81-88) taken alone: the
    message is offered to the controller when there is one.  A result of
    [None] is a message the controller did not handle. *)
Definition offer (hwnd : HWND) (message : UINT)
    (wparam : WPARAM) (lparam : LPARAM) : M Ext (option LRESULT) :=
  let* this := this_ in
  match flutter_controller_ this with
  | Some fc =>
      call (HandleTopLevelWindowProc fc hwnd message wparam lparam)
  | None => ret None
  end.

(** Channel calls arriving one after the other. *)
Fixpoint method_calls (names : list string) : M Ext unit :=
  match names with
  | [] => ret tt
  | name :: rest => method_call_handler name >> method_calls rest
  end.

End Window.

(** ** The life of a window

    What the message loop and the engine can ask of a window. *)
Inductive Entry :=
| Enter_OnCreate
| Enter_OnDestroy
| Enter_MessageHandler (hwnd : HWND) (message : UINT)
    (wparam : WPARAM) (lparam : LPARAM)
| Enter_method_call (method_name : string)
| Enter_next_frame.

Section Life.
Context {Ext : Type} {P : Platform Ext}.

Definition enter (e : Entry) : M Ext unit :=
  match e with
  | Enter_OnCreate => let* _ := OnCreate in ret tt
  | Enter_OnDestroy => OnDestroy
  | Enter_MessageHandler hwnd message wparam lparam =>
      let* _ := MessageHandler hwnd message wparam lparam in ret tt
  | Enter_method_call method_name => method_call_handler method_name
  | Enter_next_frame => next_frame_callback
  end.

(** The states of a window constructed for [project] on the machine
    [m0] that are reached without the channel call [method_name] ever
    being made. *)
Inductive reachable_without (method_name : string)
    (project : DartProject) (m0 : Machine Ext) : State Ext -> Prop :=
| reachable_new :
    reachable_without method_name project m0
      (mkState (FlutterWindow_new project) m0 [])
| reachable_enter s e s' :
    reachable_without method_name project m0 s ->
    e <> Enter_method_call method_name ->
    enter e s = Done tt s' ->
    reachable_without method_name project m0 s'.

(** A computation that, when it returns, has left the hover flag as
    it found it. *)
Definition keeps_hover {A} (c : M Ext A) : Prop :=
  forall s a s',
    c s = Done a s' ->
    maximum_button_hover_ (window s') = maximum_button_hover_ (window s).

End Life.

(** ** Runs, and what they leave alone *)

Section Runs.
Context {Ext : Type} {P : Platform Ext}.

(** Entry points taken one after the other; a fault ends the run. *)
Fixpoint enter_all (es : list Entry) : M Ext unit :=
  match es with
  | [] => ret tt
  | e :: rest => enter e >> enter_all rest
  end.

(** A computation that, when it returns, has left the observation [g]
    of the state as it found it. *)
Definition keeps {T A} (g : State Ext -> T) (c : M Ext A) : Prop :=
  forall s a s', c s = Done a s' -> g s' = g s.

(** An observation of the window object alone. *)
Definition of_window {T} (f : FlutterWindow -> T) (s : State Ext) : T :=
  f (window s).

End Runs.

(** [OnCreate] seen from outside, lines 31-63: whether the controller
    passes the test of line 31, and the calls made once it has. *)
Definition is_ready (fc : FlutterViewController) : bool :=
  match engine fc, view fc with
  | Some _, Some _ => true
  | _, _ => false
  end.

Definition setup_calls (fc : FlutterViewController) : list Event :=
  match engine fc, view fc with
  | Some e, Some v =>
      [Called (RegisterPlugins e) tt;
       Called (SetMethodCallHandler (messenger e) "ci.not.rune/snap") tt;
       Called (SetChildContent (GetNativeWindow v)) tt;
       Called (SetNextFrameCallback e) tt;
       Called (ForceRedraw fc) tt]
  | _, _ => []
  end.

(** The destruction that giving up a held controller logs. *)
Definition released (w : FlutterWindow) : list Event :=
  match flutter_controller_ w with
  | Some old => [Called (FlutterViewController_delete old) tt]
  | None => []
  end.

(** What an entry does to the hover flag: the two channel methods of
    lines 42-47 set it, nothing else writes it. *)
Definition sets_hover (e : Entry) : option bool :=
  match e with
  | Enter_method_call method_name =>
      if String.eqb method_name "maximumButtonEnter" then Some true
      else if String.eqb method_name "maximumButtonExit" then Some false
      else None
  | _ => None
  end.

(** The answer the channel gives to a method name (lines 42-50). *)
Definition answer (method_name : string) : Extern unit :=
  if String.eqb method_name "maximumButtonEnter" then MethodResult_Success
  else if String.eqb method_name "maximumButtonExit" then MethodResult_Success
  else MethodResult_NotImplemented.

(** Constructions and destructions of controllers in a log. *)
Definition is_new (ev : Event) : bool :=
  match ev with
  | Called c _ =>
      match c with
      | FlutterViewController_new _ _ _ => true
      | _ => false
      end
  end.

Definition is_delete (ev : Event) : bool :=
  match ev with
  | Called c _ =>
      match c with
      | FlutterViewController_delete _ => true
      | _ => false
      end
  end.

Fixpoint count_events (f : Event -> bool) (l : list Event) : nat :=
  match l with
  | [] => 0%nat
  | ev :: rest => ((if f ev then 1 else 0) + count_events f rest)%nat
  end.

(** The controllers a window object owns: one or none. *)
Definition held (w : FlutterWindow) : nat :=
  match flutter_controller_ w with
  | Some _ => 1%nat
  | None => 0%nat
  end.

(** Controllers constructed and not yet destroyed, beyond the one the
    window holds; integer, so that it can be followed through the
    middle of [OnCreate]. *)
Definition excess {Ext} (s : State Ext) : Z :=
  Z.of_nat (count_events is_new (log s))
  - Z.of_nat (count_events is_delete (log s))
  - Z.of_nat (held (window s)).

(** ** A concrete platform, for running the window

    An operating system and an engine simple enough to compute with.  The
    extra state counts the font reloads the engine was asked for. *)
Module Demo.

Record Scenario := mkScenario {
  base_created : bool;
  new_controller : FlutterViewController;
  handled : UINT -> option LRESULT
}.

Definition the_engine : FlutterEngine := mkFlutterEngine 1 2.
Definition the_view : FlutterView := mkFlutterView 3 0x2048.
Definition good_controller : FlutterViewController :=
  mkFlutterViewController 7 (Some the_engine) (Some the_view).
Definition no_engine_controller : FlutterViewController :=
  mkFlutterViewController 8 None (Some the_view).
Definition no_view_controller : FlutterViewController :=
  mkFlutterViewController 9 (Some the_engine) None.

(** The default frame: 8 units of border, 31 of caption. *)
Definition default_client (r : RECT) : RECT :=
  mkRECT (rc_left r + 8) (rc_top r + 31) (rc_right r - 8) (rc_bottom r - 8).

Definition default_nccalcsize (lparam : LPARAM) (m : Machine nat)
  : Machine nat :=
  match load_RECT (memory m) (ptr lparam) with
  | Some rc =>
      mkMachine (write_RECT (memory m) (ptr lparam) (default_client rc))
                (ext m)
  | None => m
  end.

Definition run (sc : Scenario) (A : Type) (c : Extern A) (m : Machine nat)
  : A * Machine nat :=
  match c in Extern T return T * Machine nat with
  | Win32Window_OnCreate => (base_created sc, m)
  | Win32Window_OnDestroy => (tt, m)
  | Win32Window_MessageHandler _ message _ _ => (message + 1000, m)
  | GetClientArea => (mkRECT 0 0 1280 720, m)
  | SetChildContent _ => (tt, m)
  | Show => (true, m)
  | DefWindowProc _ message _ lparam =>
      if message =? WM_NCCALCSIZE then (0, default_nccalcsize lparam m)
      else (0, m)
  | FlutterViewController_new _ _ _ => (new_controller sc, m)
  | FlutterViewController_delete _ => (tt, m)
  | HandleTopLevelWindowProc _ _ message _ _ => (handled sc message, m)
  | ForceRedraw _ => (tt, m)
  | RegisterPlugins _ => (tt, m)
  | SetNextFrameCallback _ => (tt, m)
  | ReloadSystemFonts _ => (tt, mkMachine (memory m) (S (ext m)))
  | SetMethodCallHandler _ _ => (tt, m)
  | MethodResult_Success => (tt, m)
  | MethodResult_NotImplemented => (tt, m)
  end.

Definition platform (sc : Scenario) : Platform nat :=
  {| extern := run sc |}.

(** The engine takes WM_CLOSE (0x0010) for itself and nothing else. *)
Definition takes_close (message : UINT) : option LRESULT :=
  if message =? 0x0010 then Some 77 else None.

Definition usual : Scenario := mkScenario true good_controller takes_close.
Definition no_window : Scenario :=
  mkScenario false good_controller takes_close.
Definition no_engine : Scenario :=
  mkScenario true no_engine_controller takes_close.
Definition no_view : Scenario :=
  mkScenario true no_view_controller takes_close.

(** A window rectangle at (100, 200), 800 by 600, in the three
    rectangles of an [NCCALCSIZE_PARAMS] at address 4096. *)
Definition a_rect : RECT := mkRECT 100 200 900 800.

Definition boot : Machine nat :=
  mkMachine
    (write_RECT (write_RECT (write_RECT empty 4096 a_rect) 4112 a_rect)
                4128 a_rect)
    0%nat.

Definition fresh : State nat := mkState (FlutterWindow_new "data") boot [].

(** A window whose controller is up, hover flag as given. *)
Definition running (hover : bool) : State nat :=
  mkState (mkFlutterWindow (Some good_controller) hover "data") boot [].

(** The state a computation ends in ([s] itself if it faults). *)
Definition after {A} (c : M nat A) (s : State nat) : State nat :=
  match c s with
  | Done _ s' => s'
  | Fault _ => s
  end.

(** A short life: the window is created, the engine reports the pointer
    leaving the maximize button, and a paint message (0x000F) passes. *)
Definition created : State nat := after (OnCreate (P := platform usual)) fresh.
Definition left_button : State nat :=
  after (method_call_handler (P := platform usual) "maximumButtonExit")
        created.
Definition painted : State nat :=
  after (MessageHandler (P := platform usual) 0x2048 0x000F 0 0) left_button.

End Demo.

(** * Properties *)

Section Properties.
Context {Ext : Type} {P : Platform Ext}.
Implicit Types (s : State Ext) (m : Machine Ext).

(** ** Running computations *)

Lemma bind_Done {A B} (c : M Ext A) (k : A -> M Ext B) s a s' :
  c s = Done a s' -> bind c k s = k a s'.
Proof. intros H. unfold bind. now rewrite H. Qed.

Lemma bind_Fault {A B} (c : M Ext A) (k : A -> M Ext B) s e :
  c s = Fault e -> bind c k s = Fault e.
Proof. intros H. unfold bind. now rewrite H. Qed.

Lemma call_Done {A} (c : Extern A) s r m :
  extern c (machine s) = (r, m) ->
  call c s = Done r (mkState (window s) m (log s ++ [Called c r])).
Proof. intros H. unfold call. now rewrite H. Qed.

Lemma call_mkState {A} (c : Extern A) w m l r m' :
  extern c m = (r, m') ->
  call c (mkState w m l) = Done r (mkState w m' (l ++ [Called c r])).
Proof. intros H. unfold call. cbn [machine]. now rewrite H. Qed.

Lemma call_returns {A} (c : Extern A) s :
  call c s =
  Done (fst (extern c (machine s)))
       (mkState (window s) (snd (extern c (machine s)))
                (log s ++ [Called c (fst (extern c (machine s)))])).
Proof. unfold call. now destruct (extern c (machine s)). Qed.

(** ** Loads and stores *)

Lemma write_LONG_other (mem : gmap Z Z) a v a' :
  a' < a \/ a + 4 <= a' ->
  write_LONG mem a v !! a' = mem !! a'.
Proof.
  intros Hout. unfold write_LONG. now rewrite !lookup_insert_ne by lia.
Qed.

Lemma store_LONG_mapped (mem : gmap Z Z) a v :
  (forall i, 0 <= i < 4 -> is_Some (mem !! (a + i))) ->
  store_LONG mem a v = Some (write_LONG mem a v).
Proof.
  intros Hmapped. unfold store_LONG.
  destruct (Hmapped 0 ltac:(lia)) as [b0 H0].
  destruct (Hmapped 1 ltac:(lia)) as [b1 H1].
  destruct (Hmapped 2 ltac:(lia)) as [b2 H2].
  destruct (Hmapped 3 ltac:(lia)) as [b3 H3].
  rewrite Z.add_0_r in H0. now rewrite H0, H1, H2, H3.
Qed.

Lemma store_LONG_unmapped (mem : gmap Z Z) a v i :
  0 <= i < 4 -> mem !! (a + i) = None ->
  store_LONG mem a v = None.
Proof.
  intros Hi Hnone. unfold store_LONG.
  assert (Hcases : i = 0 \/ i = 1 \/ i = 2 \/ i = 3) by lia.
  destruct Hcases as [-> | [-> | [-> | ->]]];
    [rewrite Z.add_0_r in Hnone |..]; rewrite Hnone;
    repeat (match goal with
            | |- context [match ?o with Some _ => _ | None => _ end] =>
                destruct o
            end); reflexivity.
Qed.

(** The bytes of a value that fits a [LONG] make up that value. *)
Lemma bytes_make_LONG v :
  - 2 ^ 31 <= v < 2 ^ 31 ->
  int32 (byte_of v 0 + 256 * byte_of v 1 + 65536 * byte_of v 2
         + 16777216 * byte_of v 3) = v.
Proof.
  intros Hv. unfold byte_of, int32.
  change (256 ^ 0) with 1. change (256 ^ 1) with 256.
  change (256 ^ 2) with 65536. change (256 ^ 3) with 16777216.
  change (2 ^ 31) with 2147483648 in *.
  change (2 ^ 32) with 4294967296.
  rewrite Z.div_1_r.
  pose proof (Z.div_mod v 256 ltac:(lia)) as E0.
  pose proof (Z.mod_pos_bound v 256 ltac:(lia)) as B0.
  pose proof (Z.div_mod (v / 256) 256 ltac:(lia)) as E1.
  pose proof (Z.mod_pos_bound (v / 256) 256 ltac:(lia)) as B1.
  pose proof (Z.div_mod (v / 256 / 256) 256 ltac:(lia)) as E2.
  pose proof (Z.mod_pos_bound (v / 256 / 256) 256 ltac:(lia)) as B2.
  pose proof (Z.mod_pos_bound (v / 256 / 256 / 256) 256 ltac:(lia)) as B3.
  pose proof (Z.div_mod (v / 256 / 256 / 256) 256 ltac:(lia)) as E3.
  replace (v / 65536) with (v / 256 / 256)
    by (rewrite Z.div_div by lia; reflexivity).
  replace (v / 16777216) with (v / 256 / 256 / 256)
    by (rewrite !Z.div_div by lia; reflexivity).
  assert (Hq : v / 256 / 256 / 256 / 256 = 0 \/
               v / 256 / 256 / 256 / 256 = -1).
  { assert (-1 <= v / 256 / 256 / 256 / 256 < 1); [| lia].
    rewrite !Z.div_div by lia. cbn.
    split; [apply Z.div_le_lower_bound | apply Z.div_lt_upper_bound]; lia. }
  destruct Hq as [Hq | Hq]; rewrite Hq in E3.
  - rewrite Z.mod_small by lia. lia.
  - assert (Hw : (v mod 256 + 256 * ((v / 256) mod 256)
                  + 65536 * ((v / 256 / 256) mod 256)
                  + 16777216 * ((v / 256 / 256 / 256) mod 256)
                  + 2147483648)
                 = (v + 2147483648) + 1 * 4294967296) by lia.
    rewrite Hw, Z.mod_add by lia. rewrite Z.mod_small by lia. lia.
Qed.

Lemma load_write_LONG (mem : gmap Z Z) a v :
  - 2 ^ 31 <= v < 2 ^ 31 ->
  load_LONG (write_LONG mem a v) a = Some v.
Proof.
  intros Hv. unfold load_LONG, write_LONG.
  rewrite (lookup_insert_ne _ (a + 3) a) by lia.
  rewrite (lookup_insert_ne _ (a + 2) a) by lia.
  rewrite (lookup_insert_ne _ (a + 1) a) by lia.
  rewrite lookup_insert_eq.
  rewrite (lookup_insert_ne _ (a + 3) (a + 1)) by lia.
  rewrite (lookup_insert_ne _ (a + 2) (a + 1)) by lia.
  rewrite lookup_insert_eq.
  rewrite (lookup_insert_ne _ (a + 3) (a + 2)) by lia.
  rewrite lookup_insert_eq.
  rewrite lookup_insert_eq.
  now rewrite bytes_make_LONG.
Qed.

Lemma load_LONG_write_other (mem : gmap Z Z) a v a' :
  a' + 4 <= a \/ a + 4 <= a' ->
  load_LONG (write_LONG mem a v) a' = load_LONG mem a'.
Proof.
  intros Hout. unfold load_LONG.
  now rewrite !write_LONG_other by lia.
Qed.

Lemma MessageHandler_offer hwnd message wparam lparam :
  MessageHandler hwnd message wparam lparam =
  let* result := offer hwnd message wparam lparam in
  match result with
  | Some r => ret r
  | None =>
      if message =? WM_FONTCHANGE then
        let* this := this_ in
        let* fc := deref (flutter_controller_ this) in
        let* e := deref (engine fc) in
        call (ReloadSystemFonts e) >>
        call (Win32Window_MessageHandler hwnd message wparam lparam)
      else if message =? WM_NCCALCSIZE then
        let* result := call (DefWindowProc hwnd WM_NCCALCSIZE
                                           wparam lparam) in
        store_rgrc0_top lparam 56 >>
        ret result
      else if message =? WM_NCHITTEST then
        let* this := this_ in
        if maximum_button_hover_ this then ret HTMAXBUTTON
        else call (Win32Window_MessageHandler hwnd message wparam lparam)
      else
        call (Win32Window_MessageHandler hwnd message wparam lparam)
  end.
Proof. reflexivity. Qed.

(** Offering a message leaves the window object as it was. *)
Lemma offer_window hwnd message wparam lparam s result s1 :
  offer hwnd message wparam lparam s = Done result s1 ->
  window s1 = window s.
Proof.
  unfold offer, bind, this_. destruct (flutter_controller_ (window s)).
  - rewrite call_returns. now intros [= _ <-].
  - now intros [= _ <-].
Qed.

(** ** The message relay *)

(** C2: when the controller's hook [HandleTopLevelWindowProc] returns a
    result [r] for a message, [MessageHandler] returns exactly [r]; the
    hook is the only call made, so neither the font reload, nor the
    size override, nor the hit-test override, nor [DefWindowProc], nor
    the base handler runs, and the window object and the memory are as
    the hook left them. *)
Theorem MessageHandler_handled s fc hwnd message wparam lparam r m :
  flutter_controller_ (window s) = Some fc ->
  extern (HandleTopLevelWindowProc fc hwnd message wparam lparam)
         (machine s) = (Some r, m) ->
  MessageHandler hwnd message wparam lparam s =
  Done r
    (mkState (window s) m
       (log s ++
        [Called (HandleTopLevelWindowProc fc hwnd message wparam lparam)
                (Some r)])).
Proof.
  intros Hfc Hhook. unfold MessageHandler, bind, this_.
  rewrite Hfc. now rewrite (call_Done _ _ _ _ Hhook).
Qed.

(** C1 (as amended): a WM_NCCALCSIZE message that the controller does
    not handle (there is no controller, or its hook declines) goes to
    [DefWindowProc]; whatever rectangle that leaves at [lparam],
    [MessageHandler] then sets its top coordinate, [rgrc[0].top], to
    exactly 56, changes no other byte of memory, and returns the value
    [DefWindowProc] returned.  The 56 is a coordinate, not a distance
    from the window's top edge: the top inset of the client rectangle
    within a window rectangle is 56 less the top of that window
    rectangle.  The four bytes of [rgrc[0].top] are taken to be
    mapped, as they are for every WM_NCCALCSIZE the system sends. *)
Theorem MessageHandler_nccalcsize s hwnd wparam lparam s1 r m :
  offer hwnd WM_NCCALCSIZE wparam lparam s = Done None s1 ->
  extern (DefWindowProc hwnd WM_NCCALCSIZE wparam lparam) (machine s1)
    = (r, m) ->
  (forall i, 0 <= i < 4 -> is_Some (memory m !! (ptr lparam + 4 + i))) ->
  exists s2,
    MessageHandler hwnd WM_NCCALCSIZE wparam lparam s = Done r s2 /\
    load_LONG (memory (machine s2)) (ptr lparam + 4) = Some 56 /\
    (forall a, a < ptr lparam + 4 \/ ptr lparam + 8 <= a ->
               memory (machine s2) !! a = memory m !! a) /\
    (forall rc,
       load_RECT (memory m) (ptr lparam) = Some rc ->
       load_RECT (memory (machine s2)) (ptr lparam)
       = Some (mkRECT (rc_left rc) 56 (rc_right rc) (rc_bottom rc))) /\
    (forall window_rect client_rect,
       load_RECT (memory (machine s2)) (ptr lparam) = Some client_rect ->
       top_inset window_rect client_rect = 56 - rc_top window_rect) /\
    ext (machine s2) = ext m /\
    window s2 = window s /\
    log s2 =
      log s1 ++ [Called (DefWindowProc hwnd WM_NCCALCSIZE wparam lparam) r].
Proof.
  intros Hoffer Hdef Hmapped.
  rewrite MessageHandler_offer, (bind_Done _ _ _ _ _ Hoffer).
  change (WM_NCCALCSIZE =? WM_FONTCHANGE) with false.
  change (WM_NCCALCSIZE =? WM_NCCALCSIZE) with true. cbv iota.
  rewrite (bind_Done _ _ _ _ _ (call_Done _ _ _ _ Hdef)).
  unfold bind, store_rgrc0_top, ret. cbn [machine memory].
  rewrite (store_LONG_mapped (memory m) (ptr lparam + 4) 56)
    by (intros i Hi; rewrite <- Z.add_assoc;
        rewrite Z.add_assoc; now apply Hmapped).
  eexists. split; [reflexivity |]. cbn [machine memory ext window log].
  assert (Htop :
    load_LONG (write_LONG (memory m) (ptr lparam + 4) 56) (ptr lparam + 4)
    = Some 56) by (apply load_write_LONG; lia).
  assert (Hrect : forall rc,
    load_RECT (memory m) (ptr lparam) = Some rc ->
    load_RECT (write_LONG (memory m) (ptr lparam + 4) 56) (ptr lparam)
    = Some (mkRECT (rc_left rc) 56 (rc_right rc) (rc_bottom rc))).
  { intros rc. unfold load_RECT. rewrite Htop.
    rewrite !load_LONG_write_other by lia.
    destruct (load_LONG (memory m) (ptr lparam)) as [l |]; [| discriminate].
    destruct (load_LONG (memory m) (ptr lparam + 4)) as [t |];
      [| discriminate].
    destruct (load_LONG (memory m) (ptr lparam + 8)) as [r' |];
      [| discriminate].
    destruct (load_LONG (memory m) (ptr lparam + 12)) as [b |];
      [| discriminate].
    now intros [= <-]. }
  split; [exact Htop |].
  split; [intros a Ha; apply write_LONG_other; lia |].
  split; [exact Hrect |].
  split.
  - intros window_rect client_rect. unfold load_RECT. rewrite Htop.
    destruct (load_LONG _ (ptr lparam)) as [l |]; [| discriminate].
    destruct (load_LONG _ (ptr lparam + 8)) as [r' |]; [| discriminate].
    destruct (load_LONG _ (ptr lparam + 12)) as [b |]; [| discriminate].
    now intros [= <-].
  - repeat split. exact (offer_window _ _ _ _ _ _ _ Hoffer).
Qed.

(** C3: for a WM_NCHITTEST message that the controller does not
    handle, when the hover flag is set [MessageHandler] returns
    HTMAXBUTTON, whatever [wparam] and [lparam] (the cursor position)
    are, and makes no further call. *)
Theorem MessageHandler_nchittest_hover s hwnd wparam lparam s1 :
  offer hwnd WM_NCHITTEST wparam lparam s = Done None s1 ->
  maximum_button_hover_ (window s) = true ->
  MessageHandler hwnd WM_NCHITTEST wparam lparam s = Done HTMAXBUTTON s1.
Proof.
  intros Hoffer Hhover.
  rewrite MessageHandler_offer, (bind_Done _ _ _ _ _ Hoffer).
  change (WM_NCHITTEST =? WM_FONTCHANGE) with false.
  change (WM_NCHITTEST =? WM_NCCALCSIZE) with false.
  change (WM_NCHITTEST =? WM_NCHITTEST) with true. cbv iota.
  unfold bind, this_.
  now rewrite (offer_window _ _ _ _ _ _ _ Hoffer), Hhover.
Qed.

(** C6: for a WM_FONTCHANGE message offered to the controller (whose
    engine is up) and not handled by it, [MessageHandler] asks the
    engine to reload the system fonts and then still hands the message
    to the base handler: the three calls are made in that order and the
    value returned is the base handler's. *)
Theorem MessageHandler_fontchange_reloads s fc e hwnd wparam lparam m1 :
  flutter_controller_ (window s) = Some fc ->
  engine fc = Some e ->
  extern (HandleTopLevelWindowProc fc hwnd WM_FONTCHANGE wparam lparam)
         (machine s) = (None, m1) ->
  let m2 := snd (extern (ReloadSystemFonts e) m1) in
  let base :=
    extern (Win32Window_MessageHandler hwnd WM_FONTCHANGE wparam lparam)
           m2 in
  MessageHandler hwnd WM_FONTCHANGE wparam lparam s =
  Done (fst base)
    (mkState (window s) (snd base)
       (log s ++
        [Called (HandleTopLevelWindowProc fc hwnd WM_FONTCHANGE
                                          wparam lparam) None;
         Called (ReloadSystemFonts e) tt;
         Called (Win32Window_MessageHandler hwnd WM_FONTCHANGE
                                            wparam lparam) (fst base)])).
Proof.
  intros Hfc He Hhook m2 base. subst m2 base.
  unfold MessageHandler, bind, this_.
  rewrite Hfc, (call_Done _ _ _ _ Hhook).
  change (WM_FONTCHANGE =? WM_FONTCHANGE) with true. cbv iota.
  cbn [window]. rewrite Hfc. unfold deref. rewrite He.
  rewrite call_returns. cbn [window machine log].
  destruct (extern (ReloadSystemFonts e) m1) as [[] m2]. cbn [fst snd].
  rewrite call_returns. cbn [window machine log].
  now rewrite <- !app_assoc.
Qed.

(** C9: the WM_FONTCHANGE branch follows [flutter_controller_] without
    testing it.  With a null controller the guard at the top only skips
    the hook (the message counts as not handled and no call is made),
    and the branch then faults on the null pointer; so the branch is
    free of that fault only when the controller is not null.  With a
    controller whose engine is up, the message is dealt with and no
    fault occurs. *)
Theorem MessageHandler_fontchange_null_controller s hwnd wparam lparam :
  (flutter_controller_ (window s) = None ->
   offer hwnd WM_FONTCHANGE wparam lparam s = Done None s /\
   MessageHandler hwnd WM_FONTCHANGE wparam lparam s =
     Fault NullDereference) /\
  (forall fc e,
     flutter_controller_ (window s) = Some fc ->
     engine fc = Some e ->
     exists r s',
       MessageHandler hwnd WM_FONTCHANGE wparam lparam s = Done r s').
Proof.
  split.
  - intros Hfc. split.
    + unfold offer, bind, this_. now rewrite Hfc.
    + unfold MessageHandler, bind, this_. rewrite Hfc. cbn.
      now rewrite Hfc.
  - intros fc e Hfc He. unfold MessageHandler, bind, this_.
    rewrite Hfc, call_returns.
    destruct (extern (HandleTopLevelWindowProc fc hwnd WM_FONTCHANGE
                                               wparam lparam) (machine s))
      as [[r |] m1]; cbn [fst snd].
    + now eexists _, _.
    + change (WM_FONTCHANGE =? WM_FONTCHANGE) with true. cbv iota.
      cbn [window]. rewrite Hfc. unfold deref. rewrite He.
      rewrite !call_returns. now eexists _, _.
Qed.

(** ** The control channel *)

Lemma method_call_enter s :
  method_call_handler "maximumButtonEnter" s =
  (set_maximum_button_hover true >> call MethodResult_Success) s.
Proof. reflexivity. Qed.

Lemma method_call_exit s :
  method_call_handler "maximumButtonExit" s =
  (set_maximum_button_hover false >> call MethodResult_Success) s.
Proof. reflexivity. Qed.

(** A call that sets the flag to [b] and reports success. *)
Lemma set_hover_success b s :
  exists s',
    (set_maximum_button_hover b >> call MethodResult_Success) s
      = Done tt s' /\
    maximum_button_hover_ (window s') = b /\
    flutter_controller_ (window s') = flutter_controller_ (window s) /\
    project_ (window s') = project_ (window s) /\
    log s' = log s ++ [Called MethodResult_Success tt].
Proof.
  unfold bind, set_maximum_button_hover. rewrite call_returns.
  cbn [window machine log].
  destruct (extern MethodResult_Success (machine s)) as [[] m].
  eexists. split; [reflexivity |]. now cbn.
Qed.

(** Repeating such a call any number of times, at least once. *)
Lemma method_calls_repeat name b :
  (forall s, method_call_handler name s =
             (set_maximum_button_hover b >> call MethodResult_Success) s) ->
  forall (n : nat) s,
  exists s',
    method_calls (replicate (S n) name) s = Done tt s' /\
    maximum_button_hover_ (window s') = b.
Proof.
  intros Hname n. induction n as [| n IH]; intros s.
  - destruct (set_hover_success b s) as (s' & Hrun & Hflag & _).
    exists s'. split; [| exact Hflag].
    cbn [replicate method_calls]. unfold bind at 1.
    now rewrite Hname, Hrun.
  - destruct (set_hover_success b s) as (s1 & Hrun & _).
    destruct (IH s1) as (s' & Hrest & Hflag).
    exists s'. split; [| exact Hflag].
    change (replicate (S (S n)) name) with (name :: replicate (S n) name).
    cbn [method_calls]. unfold bind at 1.
    now rewrite Hname, Hrun.
Qed.

(** C4: "maximumButtonEnter" leaves the hover flag true and
    "maximumButtonExit" leaves it false, from every state; either call
    answers with success; and making the same call [n + 1] times in a
    row leaves the flag at that call's value. *)
Theorem method_call_enter_exit s (n : nat) :
  (exists s',
     method_call_handler "maximumButtonEnter" s = Done tt s' /\
     maximum_button_hover_ (window s') = true /\
     log s' = log s ++ [Called MethodResult_Success tt]) /\
  (exists s',
     method_call_handler "maximumButtonExit" s = Done tt s' /\
     maximum_button_hover_ (window s') = false /\
     log s' = log s ++ [Called MethodResult_Success tt]) /\
  (exists s',
     method_calls (replicate (S n) "maximumButtonEnter") s = Done tt s' /\
     maximum_button_hover_ (window s') = true) /\
  (exists s',
     method_calls (replicate (S n) "maximumButtonExit") s = Done tt s' /\
     maximum_button_hover_ (window s') = false).
Proof.
  repeat split.
  - rewrite method_call_enter.
    destruct (set_hover_success true s) as (s' & ? & ? & _ & _ & ?).
    now exists s'.
  - rewrite method_call_exit.
    destruct (set_hover_success false s) as (s' & ? & ? & _ & _ & ?).
    now exists s'.
  - apply method_calls_repeat. exact method_call_enter.
  - apply method_calls_repeat. exact method_call_exit.
Qed.

(** C5: for a method name that is neither "maximumButtonEnter" nor
    "maximumButtonExit" the handler answers "not implemented" and does
    nothing else: that answer is the only call made, and the window
    object, the hover flag in particular, is unchanged. *)
Theorem method_call_not_implemented s method_name :
  method_name <> "maximumButtonEnter" ->
  method_name <> "maximumButtonExit" ->
  method_call_handler method_name s =
  Done tt
    (mkState (window s)
       (snd (extern MethodResult_NotImplemented (machine s)))
       (log s ++ [Called MethodResult_NotImplemented tt])).
Proof.
  intros Henter Hexit. unfold method_call_handler.
  apply String.eqb_neq in Henter, Hexit. rewrite Henter, Hexit.
  rewrite call_returns.
  now destruct (extern MethodResult_NotImplemented (machine s)) as [[] m].
Qed.

(** ** Creation and destruction *)

(** Assigning to [flutter_controller_] never faults; it destroys the
    controller that was held, if there was one. *)
Lemma assign_flutter_controller_Done p s :
  exists m,
    assign_flutter_controller p s =
    Done tt
      (mkState
         (mkFlutterWindow p (maximum_button_hover_ (window s))
                          (project_ (window s)))
         m
         (log s ++
          match flutter_controller_ (window s) with
          | Some old => [Called (FlutterViewController_delete old) tt]
          | None => []
          end)) /\
    m = match flutter_controller_ (window s) with
        | Some old =>
            snd (extern (FlutterViewController_delete old) (machine s))
        | None => machine s
        end.
Proof.
  unfold assign_flutter_controller, bind, this_, set_flutter_controller.
  cbn [window]. destruct (flutter_controller_ (window s)) as [old |].
  - rewrite call_returns. cbn [window machine log].
    destruct (extern (FlutterViewController_delete old) (machine s))
      as [[] m].
    now eexists.
  - unfold ret. rewrite app_nil_r. now eexists.
Qed.

(** C7: when [Win32Window::OnCreate] fails, [OnCreate] returns false
    at once: that call is the only one made, so no controller is
    constructed, and the window object is untouched.  When the base
    window is created and the controller constructed for it has no
    engine or no view, [OnCreate] returns false too, without
    registering plugins, installing the channel handler or attaching
    content. *)
Theorem OnCreate_failure s :
  (forall m1,
     extern Win32Window_OnCreate (machine s) = (false, m1) ->
     OnCreate s =
     Done false
       (mkState (window s) m1
                (log s ++ [Called Win32Window_OnCreate false]))) /\
  (forall m1 frame m2 fc m3,
     extern Win32Window_OnCreate (machine s) = (true, m1) ->
     extern GetClientArea m1 = (frame, m2) ->
     extern (FlutterViewController_new
               (int32 (rc_right frame - rc_left frame))
               (int32 (rc_bottom frame - rc_top frame))
               (project_ (window s))) m2 = (fc, m3) ->
     engine fc = None \/ view fc = None ->
     exists s',
       OnCreate s = Done false s' /\
       flutter_controller_ (window s') = Some fc /\
       log s' =
         log s ++
         [Called Win32Window_OnCreate true;
          Called GetClientArea frame;
          Called (FlutterViewController_new
                    (int32 (rc_right frame - rc_left frame))
                    (int32 (rc_bottom frame - rc_top frame))
                    (project_ (window s))) fc] ++
         match flutter_controller_ (window s) with
         | Some old => [Called (FlutterViewController_delete old) tt]
         | None => []
         end).
Proof.
  split.
  - intros m1 Hbase. unfold OnCreate.
    now rewrite (bind_Done _ _ _ _ _ (call_Done _ _ _ _ Hbase)).
  - intros m1 frame m2 fc m3 Hbase Hframe Hnew Hbad. unfold OnCreate.
    rewrite (bind_Done _ _ _ _ _ (call_Done _ _ _ _ Hbase)).
    cbn [negb].
    rewrite (bind_Done _ _ _ _ _ (call_mkState _ _ _ _ _ _ Hframe)).
    unfold bind at 1, this_ at 1. cbn [window].
    rewrite (bind_Done _ _ _ _ _ (call_mkState _ _ _ _ _ _ Hnew)).
    match goal with
    | |- context [bind (assign_flutter_controller ?p) ?k ?st] =>
        destruct (assign_flutter_controller_Done p st) as (m & Hassign & _);
        rewrite (bind_Done _ k st _ _ Hassign)
    end.
    unfold bind, this_, deref. cbn [window flutter_controller_].
    eexists. split.
    + destruct Hbad as [-> | Hview].
      * reflexivity.
      * rewrite Hview. destruct (engine fc); reflexivity.
    + cbn [window flutter_controller_ log]. split; [reflexivity |].
      now rewrite <- !app_assoc.
Qed.

(** C8: [OnDestroy] returns with [flutter_controller_] null; a
    controller that was held is destroyed first and
    [Win32Window::OnDestroy] is called after that.  When the reference
    is null already nothing happens to it and the base destruction is
    still carried out, so a second [OnDestroy] leaves the window object
    as the first one did and only calls the base class again. *)
Theorem OnDestroy_releases s :
  exists s' s'',
    OnDestroy s = Done tt s' /\
    window s' =
      mkFlutterWindow None (maximum_button_hover_ (window s))
                      (project_ (window s)) /\
    log s' =
      log s ++
      match flutter_controller_ (window s) with
      | Some fc => [Called (FlutterViewController_delete fc) tt]
      | None => []
      end ++ [Called Win32Window_OnDestroy tt] /\
    OnDestroy s' = Done tt s'' /\
    window s'' = window s' /\
    machine s'' = snd (extern Win32Window_OnDestroy (machine s')) /\
    log s'' = log s' ++ [Called Win32Window_OnDestroy tt].
Proof.
  assert (Hnull : forall s0,
    flutter_controller_ (window s0) = None ->
    OnDestroy s0 =
    Done tt (mkState (window s0)
               (snd (extern Win32Window_OnDestroy (machine s0)))
               (log s0 ++ [Called Win32Window_OnDestroy tt]))).
  { intros s0 H0. unfold OnDestroy, bind, this_. rewrite H0.
    unfold ret. rewrite call_returns.
    now destruct (extern Win32Window_OnDestroy (machine s0)) as [[] m]. }
  assert (Hfirst : exists s',
    OnDestroy s = Done tt s' /\
    window s' =
      mkFlutterWindow None (maximum_button_hover_ (window s))
                      (project_ (window s)) /\
    log s' =
      log s ++
      match flutter_controller_ (window s) with
      | Some fc => [Called (FlutterViewController_delete fc) tt]
      | None => []
      end ++ [Called Win32Window_OnDestroy tt]).
  { destruct (flutter_controller_ (window s)) as [fc |] eqn:Hfc.
    - unfold OnDestroy, bind at 1 2, this_. rewrite Hfc.
      destruct (assign_flutter_controller_Done None s) as (m & -> & _).
      rewrite call_returns. cbn [window machine log]. rewrite Hfc.
      destruct (extern Win32Window_OnDestroy m) as [[] m'].
      eexists. split; [reflexivity |]. cbn [window log].
      split; [reflexivity |]. now rewrite <- app_assoc.
    - rewrite (Hnull s Hfc). eexists. split; [reflexivity |].
      cbn [window log]. split; [| reflexivity].
      destruct (window s) as [c h p]. cbn in *. now subst c. }
  destruct Hfirst as (s' & Hrun & Hwin & Hlog).
  exists s'. eexists. split; [exact Hrun |].
  split; [exact Hwin |]. split; [exact Hlog |].
  split; [apply Hnull; now rewrite Hwin |]. now cbn.
Qed.

(** ** The hover flag over the life of a window *)

Lemma keeps_hover_ret {A} (a : A) : keeps_hover (ret (Ext:=Ext) a).
Proof. now intros s a' s' [= _ <-]. Qed.

Lemma keeps_hover_this : keeps_hover (this_ (Ext:=Ext)).
Proof. now intros s a' s' [= _ <-]. Qed.

Lemma keeps_hover_deref {A} (p : option A) :
  keeps_hover (deref (Ext:=Ext) p).
Proof. intros s a s'. unfold deref. destruct p; now intros [= _ <-]. Qed.

Lemma keeps_hover_call {A} (c : Extern A) : keeps_hover (call c).
Proof.
  intros s a s'. rewrite call_returns. intros [= _ <-]. reflexivity.
Qed.

Lemma keeps_hover_set_flutter_controller p :
  keeps_hover (set_flutter_controller (Ext:=Ext) p).
Proof. intros s [] s' [= <-]. reflexivity. Qed.

Lemma keeps_hover_store addr v :
  keeps_hover (store_rgrc0_top (Ext:=Ext) addr v).
Proof.
  intros s a s'. unfold store_rgrc0_top.
  destruct (store_LONG _ _ _); [| discriminate].
  destruct a. intros [= <-]. reflexivity.
Qed.

Lemma keeps_hover_bind {A B} (c : M Ext A) (k : A -> M Ext B) :
  keeps_hover c -> (forall a, keeps_hover (k a)) -> keeps_hover (bind c k).
Proof.
  intros Hc Hk s b s'. unfold bind.
  destruct (c s) as [a s1 | e] eqn:Hrun; [| discriminate].
  intros Hrest. rewrite (Hk a s1 b s' Hrest). exact (Hc s a s1 Hrun).
Qed.

Ltac keeps_hover_steps :=
  repeat first
    [ apply keeps_hover_ret
    | apply keeps_hover_this
    | apply keeps_hover_deref
    | apply keeps_hover_call
    | apply keeps_hover_set_flutter_controller
    | apply keeps_hover_store
    | apply keeps_hover_bind; [| intros ?]
    | match goal with
      | |- keeps_hover (if ?b then _ else _) => destruct b
      | |- keeps_hover (match ?x with _ => _ end) => destruct x
      end ].

Lemma keeps_hover_assign p : keeps_hover (assign_flutter_controller p).
Proof. unfold assign_flutter_controller. keeps_hover_steps. Qed.

Lemma keeps_hover_OnCreate : keeps_hover OnCreate.
Proof.
  unfold OnCreate. pose proof keeps_hover_assign. keeps_hover_steps;
    auto.
Qed.

Lemma keeps_hover_OnDestroy : keeps_hover OnDestroy.
Proof.
  unfold OnDestroy. pose proof keeps_hover_assign. keeps_hover_steps;
    auto.
Qed.

Lemma keeps_hover_MessageHandler hwnd message wparam lparam :
  keeps_hover (MessageHandler hwnd message wparam lparam).
Proof. unfold MessageHandler. keeps_hover_steps. Qed.

Lemma keeps_hover_next_frame : keeps_hover next_frame_callback.
Proof. unfold next_frame_callback. keeps_hover_steps. Qed.

(** Only "maximumButtonEnter" can raise the flag. *)
Lemma enter_keeps_hover_clear e s s' :
  e <> Enter_method_call "maximumButtonEnter" ->
  enter e s = Done tt s' ->
  maximum_button_hover_ (window s) = false ->
  maximum_button_hover_ (window s') = false.
Proof.
  intros Hne Hrun Hclear. destruct e as [| | hwnd message wparam lparam
                                         | method_name |]; cbn [enter] in Hrun.
  - rewrite <- Hclear. revert Hrun. apply keeps_hover_bind.
    + apply keeps_hover_OnCreate.
    + intros ?. apply keeps_hover_ret.
  - rewrite <- Hclear. revert Hrun. apply keeps_hover_OnDestroy.
  - rewrite <- Hclear. revert Hrun. apply keeps_hover_bind.
    + apply keeps_hover_MessageHandler.
    + intros ?. apply keeps_hover_ret.
  - unfold method_call_handler in Hrun.
    destruct (String.eqb method_name "maximumButtonEnter") eqn:Henter.
    { apply String.eqb_eq in Henter. now subst method_name. }
    destruct (String.eqb method_name "maximumButtonExit").
    + destruct (set_hover_success false s) as (s1 & Hrun1 & Hflag & _).
      rewrite Hrun1 in Hrun. now injection Hrun as <-.
    + rewrite <- Hclear. revert Hrun. apply keeps_hover_call.
  - rewrite <- Hclear. revert Hrun. apply keeps_hover_next_frame.
Qed.

Lemma reachable_without_enter_clear project m0 s :
  reachable_without "maximumButtonEnter" project m0 s ->
  maximum_button_hover_ (window s) = false.
Proof.
  induction 1 as [| s e s' _ IH Hne Hrun].
  - reflexivity.
  - exact (enter_keeps_hover_clear e s s' Hne Hrun IH).
Qed.

(** C10: the constructor clears the hover flag, and the flag stays
    clear in every state the window reaches before any
    "maximumButtonEnter" call; so a WM_NCHITTEST message arriving in
    such a state and not handled by the controller is not answered
    with HTMAXBUTTON but passed to the base handler, whose result is
    returned. *)
Theorem MessageHandler_nchittest_before_enter
    project m0 s hwnd wparam lparam s1 :
  reachable_without "maximumButtonEnter" project m0 s ->
  offer hwnd WM_NCHITTEST wparam lparam s = Done None s1 ->
  maximum_button_hover_ (FlutterWindow_new project) = false /\
  maximum_button_hover_ (window s) = false /\
  MessageHandler hwnd WM_NCHITTEST wparam lparam s =
    call (Win32Window_MessageHandler hwnd WM_NCHITTEST wparam lparam) s1.
Proof.
  intros Hreach Hoffer.
  pose proof (reachable_without_enter_clear _ _ _ Hreach) as Hclear.
  split; [reflexivity |]. split; [exact Hclear |].
  rewrite MessageHandler_offer, (bind_Done _ _ _ _ _ Hoffer).
  change (WM_NCHITTEST =? WM_FONTCHANGE) with false.
  change (WM_NCHITTEST =? WM_NCCALCSIZE) with false.
  change (WM_NCHITTEST =? WM_NCHITTEST) with true. cbv iota.
  unfold bind at 1, this_.
  now rewrite (offer_window _ _ _ _ _ _ _ Hoffer), Hclear.
Qed.

End Properties.

(** * The theorems at work on the concrete platform *)

Lemma MessageHandler_handled_witness :
  exists s',
    MessageHandler (P := Demo.platform Demo.usual) 0x2048 0x0010 0 0
                   (Demo.running true) = Done 77 s' /\
    log s' =
      [Called (HandleTopLevelWindowProc Demo.good_controller 0x2048 0x0010 0 0)
              (Some 77)].
Proof.
  eexists. split.
  - apply (MessageHandler_handled (P := Demo.platform Demo.usual)
             (Demo.running true) Demo.good_controller 0x2048 0x0010 0 0 77
             Demo.boot); reflexivity.
  - reflexivity.
Defined.

Lemma MessageHandler_nccalcsize_witness :
  exists s2,
    MessageHandler (P := Demo.platform Demo.usual) 0x2048 WM_NCCALCSIZE 1 4096
                   (Demo.running false) = Done 0 s2 /\
    load_RECT (memory (machine s2)) 4096 = Some (mkRECT 108 56 892 792).
Proof.
  destruct (MessageHandler_nccalcsize (P := Demo.platform Demo.usual)
              (Demo.running false) 0x2048 1 4096
              (mkState (window (Demo.running false)) Demo.boot
                 [Called (HandleTopLevelWindowProc Demo.good_controller
                            0x2048 WM_NCCALCSIZE 1 4096) None])
              0 (Demo.default_nccalcsize 4096 Demo.boot))
    as (s2 & Hrun & _ & _ & Hrect & _).
  - reflexivity.
  - reflexivity.
  - intros i Hi.
    assert (Hcases : i = 0 \/ i = 1 \/ i = 2 \/ i = 3) by lia.
    destruct Hcases as [-> | [-> | [-> | ->]]];
      eexists; vm_compute; reflexivity.
  - exists s2. split; [exact Hrun |].
    apply (Hrect (mkRECT 108 231 892 792)). vm_compute. reflexivity.
Defined.

(** The claim C1 as first stated fails: for the 800 by 600 window at
    (100, 200) the unhandled WM_NCCALCSIZE leaves the client top at
    56, which is 144 units above the window's top edge at 200; the top
    inset is -144, not 56. *)
Lemma MessageHandler_nccalcsize_inset_counterexample :
  exists s1 s2 client_rect,
    load_RECT (memory (machine (Demo.running false))) (ptr 4096)
      = Some (mkRECT 100 200 900 800) /\
    offer (P := Demo.platform Demo.usual) 0x2048 WM_NCCALCSIZE 1 4096
          (Demo.running false) = Done None s1 /\
    MessageHandler (P := Demo.platform Demo.usual) 0x2048 WM_NCCALCSIZE 1 4096
                   (Demo.running false) = Done 0 s2 /\
    load_RECT (memory (machine s2)) (ptr 4096) = Some client_rect /\
    top_inset (mkRECT 100 200 900 800) client_rect = -144 /\
    top_inset (mkRECT 100 200 900 800) client_rect <> 56.
Proof.
  eexists _, _, _.
  split; [vm_compute; reflexivity |].
  split; [vm_compute; reflexivity |].
  split; [vm_compute; reflexivity |].
  split; [vm_compute; reflexivity |].
  split; [vm_compute; reflexivity | vm_compute; discriminate].
Qed.

Lemma MessageHandler_nchittest_hover_witness :
  exists s1,
    MessageHandler (P := Demo.platform Demo.usual) 0x2048 WM_NCHITTEST
                   0 0x00640032 (Demo.running true) = Done 9 s1.
Proof.
  eexists.
  apply (MessageHandler_nchittest_hover (P := Demo.platform Demo.usual)
           (Demo.running true) 0x2048 0 0x00640032);
    reflexivity.
Defined.

Lemma method_call_not_implemented_witness :
  method_call_handler (P := Demo.platform Demo.usual) "maximumButtonToggle"
                      (Demo.running true) =
  Done tt
    (mkState (window (Demo.running true)) Demo.boot
             [Called MethodResult_NotImplemented tt]).
Proof.
  apply (method_call_not_implemented (P := Demo.platform Demo.usual)
           (Demo.running true) "maximumButtonToggle");
    discriminate.
Defined.

Lemma MessageHandler_fontchange_reloads_witness :
  exists s',
    MessageHandler (P := Demo.platform Demo.usual) 0x2048 WM_FONTCHANGE 0 0
                   (Demo.running false) = Done 1029 s' /\
    ext (machine s') = 1%nat /\
    log s' =
      [Called (HandleTopLevelWindowProc Demo.good_controller 0x2048
                                        WM_FONTCHANGE 0 0) None;
       Called (ReloadSystemFonts Demo.the_engine) tt;
       Called (Win32Window_MessageHandler 0x2048 WM_FONTCHANGE 0 0) 1029].
Proof.
  eexists. split.
  - apply (MessageHandler_fontchange_reloads (P := Demo.platform Demo.usual)
             (Demo.running false) Demo.good_controller Demo.the_engine
             0x2048 0 0 Demo.boot); reflexivity.
  - split; reflexivity.
Defined.

Lemma MessageHandler_fontchange_null_controller_witness :
  MessageHandler (P := Demo.platform Demo.usual) 0x2048 WM_FONTCHANGE 0 0
                 Demo.fresh = Fault NullDereference /\
  exists r s',
    MessageHandler (P := Demo.platform Demo.usual) 0x2048 WM_FONTCHANGE 0 0
                   (Demo.running false) = Done r s'.
Proof.
  split.
  - apply (proj1 (MessageHandler_fontchange_null_controller
                    (P := Demo.platform Demo.usual) Demo.fresh 0x2048 0 0)).
    reflexivity.
  - apply (proj2 (MessageHandler_fontchange_null_controller
                    (P := Demo.platform Demo.usual) (Demo.running false)
                    0x2048 0 0)
             Demo.good_controller Demo.the_engine); reflexivity.
Defined.

Lemma OnCreate_failure_witness :
  OnCreate (P := Demo.platform Demo.no_window) Demo.fresh =
    Done false
      (mkState (window Demo.fresh) Demo.boot
               [Called Win32Window_OnCreate false]) /\
  (exists s', OnCreate (P := Demo.platform Demo.no_engine) Demo.fresh
              = Done false s') /\
  (exists s', OnCreate (P := Demo.platform Demo.no_view) Demo.fresh
              = Done false s').
Proof.
  split; [| split].
  - apply (proj1 (OnCreate_failure (P := Demo.platform Demo.no_window)
                    Demo.fresh) Demo.boot).
    reflexivity.
  - destruct (proj2 (OnCreate_failure (P := Demo.platform Demo.no_engine)
                       Demo.fresh)
                Demo.boot (mkRECT 0 0 1280 720) Demo.boot
                Demo.no_engine_controller Demo.boot)
      as (s' & Hrun & _).
    + reflexivity.
    + reflexivity.
    + reflexivity.
    + left. reflexivity.
    + now exists s'.
  - destruct (proj2 (OnCreate_failure (P := Demo.platform Demo.no_view)
                       Demo.fresh)
                Demo.boot (mkRECT 0 0 1280 720) Demo.boot
                Demo.no_view_controller Demo.boot)
      as (s' & Hrun & _).
    + reflexivity.
    + reflexivity.
    + reflexivity.
    + right. reflexivity.
    + now exists s'.
Defined.

Lemma MessageHandler_nchittest_before_enter_witness :
  reachable_without (P := Demo.platform Demo.usual) "maximumButtonEnter"
                    "data" Demo.boot Demo.painted /\
  exists s',
    MessageHandler (P := Demo.platform Demo.usual) 0x2048 WM_NCHITTEST
                   0 0x00640032 Demo.painted = Done 1132 s'.
Proof.
  assert (Hreach :
    reachable_without (P := Demo.platform Demo.usual) "maximumButtonEnter"
                      "data" Demo.boot Demo.painted).
  { apply (reachable_enter _ _ _ Demo.left_button
             (Enter_MessageHandler 0x2048 0x000F 0 0));
      [| discriminate | reflexivity].
    apply (reachable_enter _ _ _ Demo.created
             (Enter_method_call "maximumButtonExit"));
      [| discriminate | reflexivity].
    apply (reachable_enter _ _ _ Demo.fresh Enter_OnCreate);
      [| discriminate | reflexivity].
    apply reachable_new. }
  split; [exact Hreach |].
  destruct (MessageHandler_nchittest_before_enter
              (P := Demo.platform Demo.usual) "data" Demo.boot Demo.painted
              0x2048 0 0x00640032
              (Demo.after (offer (P := Demo.platform Demo.usual)
                                 0x2048 WM_NCHITTEST 0 0x00640032)
                          Demo.painted)
              Hreach)
    as (_ & _ & Hrun).
  - reflexivity.
  - eexists. rewrite Hrun. reflexivity.
Defined.

(** A successful creation makes every call of [OnCreate], in source
    order, and keeps the controller. *)
Example OnCreate_usual :
  exists s',
    OnCreate (P := Demo.platform Demo.usual) Demo.fresh = Done true s' /\
    flutter_controller_ (window s') = Some Demo.good_controller /\
    log s' =
      [Called Win32Window_OnCreate true;
       Called GetClientArea (mkRECT 0 0 1280 720);
       Called (FlutterViewController_new 1280 720 "data")
              Demo.good_controller;
       Called (RegisterPlugins Demo.the_engine) tt;
       Called (SetMethodCallHandler 2 "ci.not.rune/snap") tt;
       Called (SetChildContent 0x2048) tt;
       Called (SetNextFrameCallback Demo.the_engine) tt;
       Called (ForceRedraw Demo.good_controller) tt].
Proof. eexists. repeat split. Qed.

(** The store does not check what [lparam] points to: given a pointer
    four bytes into the rectangle at 4096, the 56 lands on that
    rectangle's [right]. *)
Example MessageHandler_nccalcsize_interior :
  exists s2 rc,
    MessageHandler (P := Demo.platform Demo.usual) 0x2048 WM_NCCALCSIZE 1 4100
                   (Demo.running false) = Done 0 s2 /\
    load_RECT (memory (machine s2)) 4096 = Some rc /\
    rc_right rc = 56.
Proof. eexists _, _. repeat split; vm_compute; reflexivity. Qed.

(** Messages the window has no case for go to the base handler. *)
Example MessageHandler_other :
  exists s',
    MessageHandler (P := Demo.platform Demo.usual) 0x2048 0x000F 0 0
                   (Demo.running true) = Done 1015 s'.
Proof. eexists. reflexivity. Qed.

(** * Further properties of the window *)

Section Further.
Context {Ext : Type} {P : Platform Ext}.
Implicit Types (s : State Ext) (m : Machine Ext).

(** ** What computations keep *)

Lemma keeps_ret {T A} (g : State Ext -> T) (a : A) : keeps g (ret a).
Proof. intros s a' s' [= _ <-]. reflexivity. Qed.

Lemma keeps_this {T} (g : State Ext -> T) : keeps g this_.
Proof. intros s a' s' [= _ <-]. reflexivity. Qed.

Lemma keeps_deref {T A} (g : State Ext -> T) (p : option A) :
  keeps g (deref p).
Proof.
  intros s a s'. unfold deref. destruct p; [| discriminate].
  intros [= _ <-]. reflexivity.
Qed.

Lemma keeps_bind {T A B} (g : State Ext -> T)
    (c : M Ext A) (k : A -> M Ext B) :
  keeps g c -> (forall a, keeps g (k a)) -> keeps g (bind c k).
Proof.
  intros Hc Hk s b s'. unfold bind.
  destruct (c s) as [a s1 | e] eqn:Hrun; [| discriminate].
  intros Hrest. rewrite (Hk a s1 b s' Hrest). exact (Hc s a s1 Hrun).
Qed.

(** Calls and the store through [lparam] do not write the window. *)
Lemma keeps_window_call {A} (c : Extern A) : keeps window (call c).
Proof.
  intros s a s'. rewrite call_returns. intros [= _ <-]. reflexivity.
Qed.

Lemma keeps_window_store addr v :
  keeps (Ext := Ext) window (store_rgrc0_top addr v).
Proof.
  intros s a s'. unfold store_rgrc0_top.
  destruct (store_LONG _ _ _); [| discriminate].
  destruct a. intros [= <-]. reflexivity.
Qed.

Lemma keeps_of_window {T A} (f : FlutterWindow -> T) (c : M Ext A) :
  keeps window c -> keeps (of_window f) c.
Proof.
  intros Hc s a s' Hrun. unfold of_window. now rewrite (Hc s a s' Hrun).
Qed.

(** Offering a message always returns. *)
Lemma offer_returns hwnd message wparam lparam s :
  exists result s1, offer hwnd message wparam lparam s = Done result s1.
Proof.
  unfold offer, bind, this_. destruct (flutter_controller_ (window s)).
  - rewrite call_returns. now eexists _, _.
  - now eexists _, _.
Qed.

(** ** The message relay, all messages *)

(** X2: a message the controller does not handle, other than
    WM_FONTCHANGE and WM_NCCALCSIZE, and other than a WM_NCHITTEST
    under a set hover flag, is passed to [Win32Window::MessageHandler]
    with the same four arguments, and that handler's result is what
    [MessageHandler] returns. *)
Theorem MessageHandler_default hwnd message wparam lparam s s1 :
  offer hwnd message wparam lparam s = Done None s1 ->
  message <> WM_FONTCHANGE ->
  message <> WM_NCCALCSIZE ->
  (message = WM_NCHITTEST -> maximum_button_hover_ (window s) = false) ->
  MessageHandler hwnd message wparam lparam s =
  call (Win32Window_MessageHandler hwnd message wparam lparam) s1.
Proof.
  intros Hoffer Hfont Hcalc Hhit.
  rewrite MessageHandler_offer, (bind_Done _ _ _ _ _ Hoffer).
  apply Z.eqb_neq in Hfont, Hcalc. rewrite Hfont, Hcalc.
  destruct (message =? WM_NCHITTEST) eqn:Htest; [| reflexivity].
  apply Z.eqb_eq in Htest. unfold bind, this_.
  now rewrite (offer_window _ _ _ _ _ _ _ Hoffer), (Hhit Htest).
Qed.

(** X3: outside the WM_FONTCHANGE and WM_NCCALCSIZE branches
    [MessageHandler] follows no pointer of its own: for every other
    message it returns a result, in every state, null controller
    included. *)
Theorem MessageHandler_returns hwnd message wparam lparam s :
  message <> WM_FONTCHANGE ->
  message <> WM_NCCALCSIZE ->
  exists r s', MessageHandler hwnd message wparam lparam s = Done r s'.
Proof.
  intros Hfont Hcalc. rewrite MessageHandler_offer.
  destruct (offer_returns hwnd message wparam lparam s)
    as (result & s1 & Hoffer).
  rewrite (bind_Done _ _ _ _ _ Hoffer).
  destruct result as [r |]; [now eexists _, _ |].
  apply Z.eqb_neq in Hfont, Hcalc. rewrite Hfont, Hcalc.
  destruct (message =? WM_NCHITTEST).
  - unfold bind, this_. destruct (maximum_button_hover_ (window s1)).
    + now eexists _, _.
    + rewrite call_returns. now eexists _, _.
  - rewrite call_returns. now eexists _, _.
Qed.

(** X4: the WM_NCCALCSIZE branch stores through [lparam] without a
    test: when the controller does not handle the message and one of
    the four bytes at [lparam + 4 .. lparam + 7] is not mapped once
    [DefWindowProc] has run (a null [lparam], for one), the store is
    an access fault. *)
Theorem nccalcsize_invalid_lparam s hwnd wparam lparam s1 r m i :
  offer hwnd WM_NCCALCSIZE wparam lparam s = Done None s1 ->
  extern (DefWindowProc hwnd WM_NCCALCSIZE wparam lparam) (machine s1)
    = (r, m) ->
  0 <= i < 4 ->
  memory m !! (ptr lparam + 4 + i) = None ->
  MessageHandler hwnd WM_NCCALCSIZE wparam lparam s = Fault InvalidPointer.
Proof.
  intros Hoffer Hdef Hi Hnone.
  rewrite MessageHandler_offer, (bind_Done _ _ _ _ _ Hoffer).
  change (WM_NCCALCSIZE =? WM_FONTCHANGE) with false.
  change (WM_NCCALCSIZE =? WM_NCCALCSIZE) with true. cbv iota.
  rewrite (bind_Done _ _ _ _ _ (call_Done _ _ _ _ Hdef)).
  unfold bind, store_rgrc0_top. cbn [machine memory].
  now rewrite (store_LONG_unmapped _ _ 56 i Hi Hnone).
Qed.

(** X5: the WM_FONTCHANGE branch follows [engine()] without a test
    as well: with a controller that has no engine (what a failed
    [OnCreate] leaves behind) and declines the message,
    [MessageHandler] faults on the null engine after the hook and
    before any reload. *)
Theorem MessageHandler_fontchange_null_engine s fc hwnd wparam lparam m1 :
  flutter_controller_ (window s) = Some fc ->
  engine fc = None ->
  extern (HandleTopLevelWindowProc fc hwnd WM_FONTCHANGE wparam lparam)
         (machine s) = (None, m1) ->
  MessageHandler hwnd WM_FONTCHANGE wparam lparam s = Fault NullDereference.
Proof.
  intros Hfc He Hhook. unfold MessageHandler, bind, this_.
  rewrite Hfc, (call_Done _ _ _ _ Hhook).
  change (WM_FONTCHANGE =? WM_FONTCHANGE) with true. cbv iota.
  cbn [window]. rewrite Hfc. unfold deref. now rewrite He.
Qed.

(** ** Creation, in full *)

Lemma int32_small z : - 2 ^ 31 <= z < 2 ^ 31 -> int32 z = z.
Proof. intros H. unfold int32. rewrite Z.mod_small; lia. Qed.

Lemma call_unit (c : Extern unit) s :
  call c s =
  Done tt (mkState (window s) (snd (extern c (machine s)))
                   (log s ++ [Called c tt])).
Proof.
  rewrite call_returns. now destruct (extern c (machine s)) as [[] m].
Qed.

(** Lines 31-65, run on a window that holds [fc]. *)
Lemma run_setup fc s :
  exists m,
    match engine fc, view fc with
    | Some e, Some v =>
        call (RegisterPlugins e) >>
        call (SetMethodCallHandler (messenger e) "ci.not.rune/snap") >>
        call (SetChildContent (GetNativeWindow v)) >>
        call (SetNextFrameCallback e) >>
        call (ForceRedraw fc) >>
        ret true
    | _, _ => ret false
    end s
    = Done (is_ready fc) (mkState (window s) m (log s ++ setup_calls fc)).
Proof.
  unfold is_ready, setup_calls.
  destruct (engine fc) as [e |], (view fc) as [v |];
    try (exists (machine s); unfold ret; rewrite app_nil_r; now destruct s).
  unfold bind. repeat (rewrite call_unit; cbv beta iota).
  cbn [window machine log]. unfold ret. rewrite <- !app_assoc.
  eexists. reflexivity.
Qed.

(** Lines 19-22: the base class fails. *)
Lemma OnCreate_base_failed s m1 :
  extern Win32Window_OnCreate (machine s) = (false, m1) ->
  OnCreate s =
  Done false
    (mkState (window s) m1 (log s ++ [Called Win32Window_OnCreate false])).
Proof.
  intros Hbase. unfold OnCreate.
  now rewrite (bind_Done _ _ _ _ _ (call_Done _ _ _ _ Hbase)).
Qed.

(** Lines 24-65: the base class succeeds. *)
Lemma OnCreate_base_created s m1 frame m2 fc m3 :
  extern Win32Window_OnCreate (machine s) = (true, m1) ->
  extern GetClientArea m1 = (frame, m2) ->
  extern (FlutterViewController_new
            (int32 (rc_right frame - rc_left frame))
            (int32 (rc_bottom frame - rc_top frame))
            (project_ (window s))) m2 = (fc, m3) ->
  exists m,
    OnCreate s =
    Done (is_ready fc)
      (mkState
         (mkFlutterWindow (Some fc) (maximum_button_hover_ (window s))
                          (project_ (window s)))
         m
         (log s ++
          [Called Win32Window_OnCreate true;
           Called GetClientArea frame;
           Called (FlutterViewController_new
                     (int32 (rc_right frame - rc_left frame))
                     (int32 (rc_bottom frame - rc_top frame))
                     (project_ (window s))) fc] ++
          released (window s) ++ setup_calls fc)).
Proof.
  intros Hbase Hframe Hnew. unfold OnCreate.
  rewrite (bind_Done _ _ _ _ _ (call_Done _ _ _ _ Hbase)). cbn [negb].
  rewrite (bind_Done _ _ _ _ _ (call_mkState _ _ _ _ _ _ Hframe)).
  unfold bind at 1, this_ at 1. cbn [window].
  rewrite (bind_Done _ _ _ _ _ (call_mkState _ _ _ _ _ _ Hnew)).
  match goal with
  | |- context [bind (assign_flutter_controller ?p) ?k ?st] =>
      destruct (assign_flutter_controller_Done p st) as (m4 & Hassign & _);
      rewrite (bind_Done _ k st _ _ Hassign)
  end.
  cbn [window machine log].
  unfold bind at 1 2, this_, deref. cbn [window flutter_controller_].
  match goal with
  | |- context [Done (is_ready fc) _] =>
      match goal with
      | |- exists m, ?run ?st = _ =>
          destruct (run_setup fc st) as (m & Hsetup)
      end
  end.
  exists m. rewrite Hsetup. cbn [window log]. unfold released.
  now rewrite <- !app_assoc.
Qed.

(** Every outcome of [OnCreate] is one of these two. *)
Lemma OnCreate_shape s :
  (exists m,
     OnCreate s =
     Done false
       (mkState (window s) m
                (log s ++ [Called Win32Window_OnCreate false]))) \/
  (exists frame fc m,
     OnCreate s =
     Done (is_ready fc)
       (mkState
          (mkFlutterWindow (Some fc) (maximum_button_hover_ (window s))
                           (project_ (window s)))
          m
          (log s ++
           [Called Win32Window_OnCreate true;
            Called GetClientArea frame;
            Called (FlutterViewController_new
                      (int32 (rc_right frame - rc_left frame))
                      (int32 (rc_bottom frame - rc_top frame))
                      (project_ (window s))) fc] ++
           released (window s) ++ setup_calls fc))).
Proof.
  destruct (extern Win32Window_OnCreate (machine s)) as [[|] m1] eqn:Hbase.
  - right.
    destruct (extern GetClientArea m1) as [frame m2] eqn:Hframe.
    destruct (extern (FlutterViewController_new
                        (int32 (rc_right frame - rc_left frame))
                        (int32 (rc_bottom frame - rc_top frame))
                        (project_ (window s))) m2) as [fc m3] eqn:Hnew.
    destruct (OnCreate_base_created s m1 frame m2 fc m3 Hbase Hframe Hnew)
      as (m & Hrun).
    now exists frame, fc, m.
  - left. exists m1. now apply OnCreate_base_failed.
Qed.

(** X6: when the base window is created and the controller built for
    it has both its engine and its view, [OnCreate] returns true, holds
    that controller, and has made, after the three opening calls and the
    destruction of a controller it may have held before, exactly these
    calls in this order: plugin registration on the engine, the handler
    on channel "ci.not.rune/snap" of the engine's messenger, the view's
    native window as child content, the next-frame callback, and the
    forced redraw. *)
Theorem OnCreate_success s m1 frame m2 fc m3 e v :
  extern Win32Window_OnCreate (machine s) = (true, m1) ->
  extern GetClientArea m1 = (frame, m2) ->
  extern (FlutterViewController_new
            (int32 (rc_right frame - rc_left frame))
            (int32 (rc_bottom frame - rc_top frame))
            (project_ (window s))) m2 = (fc, m3) ->
  engine fc = Some e ->
  view fc = Some v ->
  exists m,
    OnCreate s =
    Done true
      (mkState
         (mkFlutterWindow (Some fc) (maximum_button_hover_ (window s))
                          (project_ (window s)))
         m
         (log s ++
          [Called Win32Window_OnCreate true;
           Called GetClientArea frame;
           Called (FlutterViewController_new
                     (int32 (rc_right frame - rc_left frame))
                     (int32 (rc_bottom frame - rc_top frame))
                     (project_ (window s))) fc] ++
          released (window s) ++
          [Called (RegisterPlugins e) tt;
           Called (SetMethodCallHandler (messenger e) "ci.not.rune/snap") tt;
           Called (SetChildContent (GetNativeWindow v)) tt;
           Called (SetNextFrameCallback e) tt;
           Called (ForceRedraw fc) tt])).
Proof.
  intros Hbase Hframe Hnew He Hv.
  destruct (OnCreate_base_created s m1 frame m2 fc m3 Hbase Hframe Hnew)
    as (m & Hrun).
  exists m. rewrite Hrun. unfold is_ready, setup_calls.
  now rewrite He, Hv.
Qed.

(** X7: [OnCreate] never faults: the controller it follows in lines
    31-63 is the one it has just installed.  It leaves the hover flag
    and the project alone, and when it returns true the window holds a
    controller whose engine and view are both present. *)
Theorem OnCreate_outcome s :
  exists b s',
    OnCreate s = Done b s' /\
    maximum_button_hover_ (window s') = maximum_button_hover_ (window s) /\
    project_ (window s') = project_ (window s) /\
    (b = true ->
     exists fc e v,
       flutter_controller_ (window s') = Some fc /\
       engine fc = Some e /\ view fc = Some v).
Proof.
  destruct (OnCreate_shape s) as [(m & Hrun) | (frame & fc & m & Hrun)];
    rewrite Hrun; eexists _, _; (split; [reflexivity |]);
    cbn [window maximum_button_hover_ project_ flutter_controller_].
  - repeat split. discriminate.
  - repeat split. unfold is_ready.
    destruct (engine fc) as [e |] eqn:He, (view fc) as [v |] eqn:Hv;
      try discriminate.
    intros _. now exists fc, e, v.
Qed.

(** X8: the controller is constructed with the size of the client
    area: for a client rectangle whose width and height fit a [LONG],
    [OnCreate] passes exactly [right - left] and [bottom - top], and
    the window's project, to the constructor. *)
Theorem OnCreate_size s m1 frame m2 :
  extern Win32Window_OnCreate (machine s) = (true, m1) ->
  extern GetClientArea m1 = (frame, m2) ->
  - 2 ^ 31 <= rc_right frame - rc_left frame < 2 ^ 31 ->
  - 2 ^ 31 <= rc_bottom frame - rc_top frame < 2 ^ 31 ->
  exists b s' fc,
    OnCreate s = Done b s' /\
    In (Called (FlutterViewController_new
                  (rc_right frame - rc_left frame)
                  (rc_bottom frame - rc_top frame)
                  (project_ (window s))) fc)
       (log s').
Proof.
  intros Hbase Hframe Hwidth Hheight.
  destruct (extern (FlutterViewController_new
                      (int32 (rc_right frame - rc_left frame))
                      (int32 (rc_bottom frame - rc_top frame))
                      (project_ (window s))) m2) as [fc m3] eqn:Hnew.
  destruct (OnCreate_base_created s m1 frame m2 fc m3 Hbase Hframe Hnew)
    as (m & Hrun).
  rewrite !int32_small in Hrun by assumption.
  eexists _, _, fc. split; [exact Hrun |]. cbn [log].
  apply in_or_app. right. cbn. auto.
Qed.

(** ** Destruction, in full *)

Lemma OnDestroy_shape s :
  exists m,
    OnDestroy s =
    Done tt
      (mkState
         (mkFlutterWindow None (maximum_button_hover_ (window s))
                          (project_ (window s)))
         m
         (log s ++ released (window s)
                ++ [Called Win32Window_OnDestroy tt])).
Proof.
  unfold released.
  destruct (flutter_controller_ (window s)) as [fc |] eqn:Hfc.
  - unfold OnDestroy, bind at 1 2, this_. rewrite Hfc.
    destruct (assign_flutter_controller_Done None s) as (m & -> & _).
    rewrite call_unit. cbn [window machine log]. rewrite Hfc.
    eexists. rewrite <- app_assoc. reflexivity.
  - unfold OnDestroy, bind, this_. rewrite Hfc. unfold ret.
    rewrite call_unit. eexists. cbn [app].
    destruct (window s) as [c h p]. cbn in *. subst c. reflexivity.
Qed.

(** X9: [OnDestroy] undoes [OnCreate] on the window object: from a
    window that holds no controller, whatever [OnCreate] returned, the
    [OnDestroy] that follows returns, puts the window object back as it
    was, and destroys the controller that [OnCreate] had installed
    before it calls the base class. *)
Theorem OnCreate_OnDestroy s b s1 :
  flutter_controller_ (window s) = None ->
  OnCreate s = Done b s1 ->
  exists s2,
    OnDestroy s1 = Done tt s2 /\
    window s2 = window s /\
    log s2 =
      log s1 ++ released (window s1) ++ [Called Win32Window_OnDestroy tt].
Proof.
  intros Hnone Hcreate.
  assert (Hkept :
    maximum_button_hover_ (window s1) = maximum_button_hover_ (window s) /\
    project_ (window s1) = project_ (window s)).
  { destruct (OnCreate_shape s) as [(m & Hrun) | (frame & fc & m & Hrun)];
      rewrite Hrun in Hcreate; injection Hcreate as _ <-; now cbn. }
  destruct Hkept as [Hhover Hproject].
  destruct (OnDestroy_shape s1) as (m & Hdestroy).
  eexists. split; [exact Hdestroy |]. cbn [window log].
  split; [| reflexivity]. rewrite Hhover, Hproject.
  destruct (window s) as [c h p]. cbn in *. now subst c.
Qed.

(** ** The control channel, call after call *)

(** One channel call: it returns, gives the answer of [answer], sets
    the flag as [sets_hover] says and writes nothing else. *)
Lemma method_call_step method_name s :
  exists m,
    method_call_handler method_name s =
    Done tt
      (mkState
         (mkFlutterWindow
            (flutter_controller_ (window s))
            (match sets_hover (Enter_method_call method_name) with
             | Some b => b
             | None => maximum_button_hover_ (window s)
             end)
            (project_ (window s)))
         m
         (log s ++ [Called (answer method_name) tt])).
Proof.
  unfold method_call_handler, sets_hover, answer.
  destruct (String.eqb method_name "maximumButtonEnter");
    [| destruct (String.eqb method_name "maximumButtonExit")].
  - unfold bind, set_maximum_button_hover. rewrite call_unit.
    eexists. reflexivity.
  - unfold bind, set_maximum_button_hover. rewrite call_unit.
    eexists. reflexivity.
  - rewrite call_unit. eexists. destruct (window s). reflexivity.
Qed.

(** X10: any sequence of channel calls runs to its end, and each call
    gets exactly one answer, in order: success for
    "maximumButtonEnter" and "maximumButtonExit", "not implemented" for
    every other name.  These answers are the only calls made, and the
    controller and the project are never written. *)
Theorem method_calls_answers (names : list string) s :
  exists s',
    method_calls names s = Done tt s' /\
    log s' = log s ++ map (fun name => Called (answer name) tt) names /\
    flutter_controller_ (window s') = flutter_controller_ (window s) /\
    project_ (window s') = project_ (window s).
Proof.
  revert s. induction names as [| name rest IH]; intros s.
  - exists s. cbn. now rewrite app_nil_r.
  - destruct (method_call_step name s) as (m & Hstep).
    match type of Hstep with
    | _ = Done tt ?st => destruct (IH st) as (s' & Hrest & Hlog & Hfc & Hpr)
    end.
    exists s'. cbn [method_calls map]. unfold bind at 1.
    rewrite Hstep. split; [exact Hrest |].
    rewrite Hlog, Hfc, Hpr. cbn [window log flutter_controller_ project_].
    now rewrite <- app_assoc.
Qed.

(** ** Runs of the window *)

Lemma keeps_set_flutter_controller {T} (f : FlutterWindow -> T) p :
  (forall c c' h pr,
     f (mkFlutterWindow c h pr) = f (mkFlutterWindow c' h pr)) ->
  keeps (Ext := Ext) (of_window f) (set_flutter_controller p).
Proof.
  intros Hf s [] s' [= <-]. unfold of_window. cbn [window].
  destruct (window s). apply Hf.
Qed.

Lemma keeps_set_maximum_button_hover {T} (f : FlutterWindow -> T) b :
  (forall c h h' pr,
     f (mkFlutterWindow c h pr) = f (mkFlutterWindow c h' pr)) ->
  keeps (Ext := Ext) (of_window f) (set_maximum_button_hover b).
Proof.
  intros Hf s [] s' [= <-]. unfold of_window. cbn [window].
  destruct (window s). apply Hf.
Qed.

Ltac keeps_of_window_steps :=
  repeat first
    [ apply keeps_ret
    | apply keeps_this
    | apply keeps_deref
    | apply keeps_of_window, keeps_window_call
    | apply keeps_of_window, keeps_window_store
    | apply keeps_set_flutter_controller; intros; reflexivity
    | apply keeps_set_maximum_button_hover; intros; reflexivity
    | apply keeps_bind; [| intros ?]
    | match goal with
      | |- keeps _ (if ?b then _ else _) => destruct b
      | |- keeps _ (match ?x with _ => _ end) => destruct x
      end ].

(** No entry point writes the project. *)
Lemma keeps_project_enter e : keeps (of_window project_) (enter e).
Proof.
  destruct e; cbn [enter];
    unfold OnCreate, OnDestroy, MessageHandler, method_call_handler,
           next_frame_callback, assign_flutter_controller;
    keeps_of_window_steps.
Qed.

(** Only [OnCreate] and [OnDestroy] write the controller. *)
Lemma keeps_controller_enter e :
  e <> Enter_OnCreate -> e <> Enter_OnDestroy ->
  keeps (of_window flutter_controller_) (enter e).
Proof.
  intros Hcreate Hdestroy. destruct e; try congruence; cbn [enter];
    unfold MessageHandler, method_call_handler, next_frame_callback;
    keeps_of_window_steps.
Qed.

(** Only the two channel methods write the hover flag. *)
Lemma keeps_hover_enter e :
  sets_hover e = None ->
  keeps (of_window maximum_button_hover_) (enter e).
Proof.
  intros Hquiet. destruct e as [| | hwnd message wparam lparam
                                | method_name |]; cbn [enter].
  - unfold OnCreate, assign_flutter_controller. keeps_of_window_steps.
  - unfold OnDestroy, assign_flutter_controller. keeps_of_window_steps.
  - unfold MessageHandler. keeps_of_window_steps.
  - unfold sets_hover in Hquiet. unfold method_call_handler.
    destruct (String.eqb method_name "maximumButtonEnter");
      [discriminate |].
    destruct (String.eqb method_name "maximumButtonExit");
      [discriminate |].
    keeps_of_window_steps.
  - unfold next_frame_callback. keeps_of_window_steps.
Qed.

Lemma enter_sets_hover e b s s' :
  sets_hover e = Some b ->
  enter e s = Done tt s' ->
  maximum_button_hover_ (window s') = b.
Proof.
  destruct e as [| | | method_name |]; try discriminate.
  cbn [enter]. intros Hsets Hrun.
  destruct (method_call_step method_name s) as (m & Hstep).
  rewrite Hstep in Hrun. injection Hrun as <-.
  cbn [window maximum_button_hover_]. unfold sets_hover in *.
  now rewrite Hsets.
Qed.

Lemma keeps_enter_all {T} (g : State Ext -> T) (ok : Entry -> Prop) es :
  (forall e, ok e -> keeps g (enter e)) ->
  Forall ok es ->
  keeps g (enter_all es).
Proof.
  intros Hok Hes. induction Hes as [| e rest He _ IH]; cbn [enter_all].
  - apply keeps_ret.
  - apply keeps_bind; [now apply Hok | intros _; exact IH].
Qed.

Lemma enter_all_app es1 es2 s s' :
  enter_all (es1 ++ es2) s = Done tt s' ->
  exists s1, enter_all es1 s = Done tt s1 /\ enter_all es2 s1 = Done tt s'.
Proof.
  revert s. induction es1 as [| e rest IH]; intros s; cbn [app enter_all].
  - intros Hrun. now exists s.
  - unfold bind at 1 2. destruct (enter e s) as [[] s0 | err];
      [| discriminate].
    apply IH.
Qed.

(** X11: over any run of entry points, the hover flag is what the
    last "maximumButtonEnter" or "maximumButtonExit" call made it:
    whatever came before that call, and whatever window creation,
    destruction, messages, frame callbacks and other channel calls
    came after it, the flag is true after Enter and false after
    Exit. *)
Theorem hover_is_last_call pre e post b s s' :
  sets_hover e = Some b ->
  Forall (fun e' => sets_hover e' = None) post ->
  enter_all (pre ++ e :: post) s = Done tt s' ->
  maximum_button_hover_ (window s') = b.
Proof.
  intros Hsets Hquiet Hrun.
  destruct (enter_all_app _ _ _ _ Hrun) as (s1 & _ & Htail).
  cbn [enter_all] in Htail. unfold bind in Htail.
  destruct (enter e s1) as [[] s2 | err] eqn:Hcall; [| discriminate].
  rewrite <- (enter_sets_hover e b s1 s2 Hsets Hcall).
  exact (keeps_enter_all (of_window maximum_button_hover_) _ post
           keeps_hover_enter Hquiet s2 tt s' Htail).
Qed.

(** X12: the project given to the constructor is never replaced: no
    run of entry points writes it; and a run in which the window is
    neither created nor destroyed keeps the controller it started
    with. *)
Theorem run_keeps_owned es s s' :
  enter_all es s = Done tt s' ->
  project_ (window s') = project_ (window s) /\
  (Forall (fun e => e <> Enter_OnCreate /\ e <> Enter_OnDestroy) es ->
   flutter_controller_ (window s') = flutter_controller_ (window s)).
Proof.
  intros Hrun. split.
  - refine (keeps_enter_all (of_window project_) (fun _ => True) es
              _ _ s tt s' Hrun).
    + intros e _. apply keeps_project_enter.
    + now apply Forall_forall.
  - intros Hquiet.
    refine (keeps_enter_all (of_window flutter_controller_) _ es
              _ Hquiet s tt s' Hrun).
    intros e [Hcreate Hdestroy]. now apply keeps_controller_enter.
Qed.

(** ** Controllers constructed and destroyed *)

Lemma count_events_app f l1 l2 :
  count_events f (l1 ++ l2)
  = (count_events f l1 + count_events f l2)%nat.
Proof.
  induction l1 as [| ev l1 IH]; cbn [app count_events]; [reflexivity |].
  rewrite IH. lia.
Qed.

Lemma count_released w :
  count_events is_new (released w) = 0%nat /\
  count_events is_delete (released w) = held w.
Proof. unfold released, held. now destruct (flutter_controller_ w). Qed.

Lemma count_setup_calls fc :
  count_events is_new (setup_calls fc) = 0%nat /\
  count_events is_delete (setup_calls fc) = 0%nat.
Proof.
  unfold setup_calls. now destruct (engine fc), (view fc).
Qed.

Lemma keeps_excess_call {A} (c : Extern A) :
  (forall r, is_new (Called c r) = false) ->
  (forall r, is_delete (Called c r) = false) ->
  keeps excess (call c).
Proof.
  intros Hnew Hdelete s a s'. rewrite call_returns. intros [= _ <-].
  unfold excess. cbn [log window]. rewrite !count_events_app.
  cbn [count_events]. rewrite Hnew, Hdelete. lia.
Qed.

Lemma keeps_excess_store addr v :
  keeps (Ext := Ext) excess (store_rgrc0_top addr v).
Proof.
  intros s a s'. unfold store_rgrc0_top.
  destruct (store_LONG _ _ _); [| discriminate].
  destruct a. intros [= <-]. reflexivity.
Qed.

Lemma keeps_excess_set_maximum_button_hover b :
  keeps (Ext := Ext) excess (set_maximum_button_hover b).
Proof. intros s [] s' [= <-]. reflexivity. Qed.

Ltac keeps_excess_steps :=
  repeat first
    [ apply keeps_ret
    | apply keeps_this
    | apply keeps_deref
    | apply keeps_excess_call; intros; reflexivity
    | apply keeps_excess_store
    | apply keeps_excess_set_maximum_button_hover
    | apply keeps_bind; [| intros ?]
    | match goal with
      | |- keeps _ (if ?b then _ else _) => destruct b
      | |- keeps _ (match ?x with _ => _ end) => destruct x
      end ].

Lemma keeps_excess_OnCreate : keeps excess OnCreate.
Proof.
  intros s b s' Hrun.
  destruct (count_released (window s)) as [Hnew Hdelete].
  destruct (OnCreate_shape s) as [(m & Hshape) | (frame & fc & m & Hshape)];
    rewrite Hshape in Hrun; injection Hrun as _ <-;
    unfold excess; cbn [log window]; rewrite !count_events_app.
  - cbn. lia.
  - destruct (count_setup_calls fc) as [Hnew' Hdelete'].
    cbn [count_events is_new is_delete]. rewrite !count_events_app.
    rewrite Hnew, Hdelete, Hnew', Hdelete'.
    cbn [held flutter_controller_]. lia.
Qed.

Lemma keeps_excess_OnDestroy : keeps excess OnDestroy.
Proof.
  intros s [] s' Hrun.
  destruct (count_released (window s)) as [Hnew Hdelete].
  destruct (OnDestroy_shape s) as (m & Hshape).
  rewrite Hshape in Hrun. injection Hrun as <-.
  unfold excess. cbn [log window]. rewrite !count_events_app.
  rewrite Hnew, Hdelete. cbn. lia.
Qed.

Lemma keeps_excess_enter e : keeps excess (enter e).
Proof.
  destruct e; cbn [enter].
  - apply keeps_bind; [apply keeps_excess_OnCreate |].
    intros ?. apply keeps_ret.
  - apply keeps_excess_OnDestroy.
  - unfold MessageHandler. keeps_excess_steps.
  - unfold method_call_handler. keeps_excess_steps.
  - unfold next_frame_callback. keeps_excess_steps.
Qed.

(** X13: the window owns its controllers one at a time and loses
    none.  After any run of entry points on a newly constructed
    window, the controllers constructed are those destroyed plus the
    one the window holds, if it holds one: [OnCreate] destroys the
    controller it replaces, [OnDestroy] the one it gives up, and
    nothing else constructs or destroys one. *)
Theorem controllers_balanced project (m0 : Machine Ext) es s' :
  enter_all es (mkState (FlutterWindow_new project) m0 []) = Done tt s' ->
  count_events is_new (log s')
  = (count_events is_delete (log s') + held (window s'))%nat.
Proof.
  intros Hrun.
  assert (Hsame : excess s' =
                  excess (mkState (FlutterWindow_new project) m0 [])).
  { refine (keeps_enter_all excess (fun _ => True) es _ _ _ tt s' Hrun).
    - intros e _. apply keeps_excess_enter.
    - now apply Forall_forall. }
  unfold excess in Hsame. cbn in Hsame. lia.
Qed.

(** ** A created window and the font change *)

Lemma MessageHandler_fontchange_ready s fc e hwnd wparam lparam :
  flutter_controller_ (window s) = Some fc ->
  engine fc = Some e ->
  exists r s',
    MessageHandler hwnd WM_FONTCHANGE wparam lparam s = Done r s'.
Proof.
  intros Hfc He. unfold MessageHandler, bind, this_.
  rewrite Hfc, call_returns.
  destruct (extern (HandleTopLevelWindowProc fc hwnd WM_FONTCHANGE
                                             wparam lparam) (machine s))
    as [[r |] m1]; cbn [fst snd].
  - now eexists _, _.
  - change (WM_FONTCHANGE =? WM_FONTCHANGE) with true. cbv iota.
    cbn [window]. rewrite Hfc. unfold deref. rewrite He.
    rewrite !call_returns. now eexists _, _.
Qed.

(** X14: once [OnCreate] has returned true, WM_FONTCHANGE is safe for
    as long as the window is neither created again nor destroyed:
    after any run of messages, channel calls and frame callbacks,
    [MessageHandler] returns a result for a font change, the
    controller and engine it follows being those [OnCreate]
    checked. *)
Theorem fontchange_after_OnCreate s s1 es s2 hwnd wparam lparam :
  OnCreate s = Done true s1 ->
  Forall (fun e => e <> Enter_OnCreate /\ e <> Enter_OnDestroy) es ->
  enter_all es s1 = Done tt s2 ->
  exists r s3,
    MessageHandler hwnd WM_FONTCHANGE wparam lparam s2 = Done r s3.
Proof.
  intros Hcreate Hquiet Hrun.
  assert (Hready : exists fc e,
            flutter_controller_ (window s1) = Some fc /\
            engine fc = Some e).
  { destruct (OnCreate_shape s) as [(m & Hshape) | (frame & fc & m & Hshape)];
      rewrite Hshape in Hcreate.
    - discriminate.
    - injection Hcreate as Hready <-. unfold is_ready in Hready.
      destruct (engine fc) as [e |] eqn:He; [| discriminate].
      now exists fc, e. }
  destruct Hready as (fc & e & Hfc & He).
  assert (Hkept : flutter_controller_ (window s2) = Some fc).
  { rewrite <- Hfc.
    refine (keeps_enter_all (of_window flutter_controller_) _ es
              _ Hquiet s1 tt s2 Hrun).
    intros e' [Hc Hd]. now apply keeps_controller_enter. }
  exact (MessageHandler_fontchange_ready s2 fc e hwnd wparam lparam Hkept He).
Qed.

End Further.

(** * The further properties at work on the concrete platform *)

Lemma MessageHandler_default_witness :
  exists s',
    MessageHandler (P := Demo.platform Demo.usual) 0x2048 0x000F 0 0
                   (Demo.running true) = Done 1015 s'.
Proof.
  eexists.
  rewrite (MessageHandler_default (P := Demo.platform Demo.usual)
             0x2048 0x000F 0 0 (Demo.running true)
             (Demo.after (offer (P := Demo.platform Demo.usual)
                                0x2048 0x000F 0 0)
                         (Demo.running true))).
  - reflexivity.
  - reflexivity.
  - unfold WM_FONTCHANGE. lia.
  - unfold WM_NCCALCSIZE. lia.
  - unfold WM_NCHITTEST. lia.
Defined.

Lemma MessageHandler_returns_witness :
  exists r s',
    MessageHandler (P := Demo.platform Demo.usual) 0x2048 0x000F 0 0
                   Demo.fresh = Done r s'.
Proof.
  apply (MessageHandler_returns (P := Demo.platform Demo.usual)
           0x2048 0x000F 0 0 Demo.fresh).
  - unfold WM_FONTCHANGE. lia.
  - unfold WM_NCCALCSIZE. lia.
Defined.

Lemma nccalcsize_invalid_lparam_witness :
  MessageHandler (P := Demo.platform Demo.usual) 0x2048 WM_NCCALCSIZE 1 0
                 (Demo.running false) = Fault InvalidPointer.
Proof.
  apply (nccalcsize_invalid_lparam (P := Demo.platform Demo.usual)
           (Demo.running false) 0x2048 1 0
           (Demo.after (offer (P := Demo.platform Demo.usual)
                              0x2048 WM_NCCALCSIZE 1 0)
                       (Demo.running false))
           0 Demo.boot 0).
  - reflexivity.
  - reflexivity.
  - lia.
  - vm_compute. reflexivity.
Defined.

Lemma MessageHandler_fontchange_null_engine_witness :
  MessageHandler (P := Demo.platform Demo.no_engine) 0x2048 WM_FONTCHANGE 0 0
    (mkState (mkFlutterWindow (Some Demo.no_engine_controller) false "data")
             Demo.boot [])
  = Fault NullDereference.
Proof.
  apply (MessageHandler_fontchange_null_engine
           (P := Demo.platform Demo.no_engine)
           (mkState (mkFlutterWindow (Some Demo.no_engine_controller)
                                     false "data") Demo.boot [])
           Demo.no_engine_controller 0x2048 0 0 Demo.boot);
    reflexivity.
Defined.

Lemma OnCreate_success_witness :
  exists m,
    OnCreate (P := Demo.platform Demo.usual) Demo.fresh =
    Done true
      (mkState (mkFlutterWindow (Some Demo.good_controller) false "data") m
         [Called Win32Window_OnCreate true;
          Called GetClientArea (mkRECT 0 0 1280 720);
          Called (FlutterViewController_new 1280 720 "data")
                 Demo.good_controller;
          Called (RegisterPlugins Demo.the_engine) tt;
          Called (SetMethodCallHandler 2 "ci.not.rune/snap") tt;
          Called (SetChildContent 0x2048) tt;
          Called (SetNextFrameCallback Demo.the_engine) tt;
          Called (ForceRedraw Demo.good_controller) tt]).
Proof.
  apply (OnCreate_success (P := Demo.platform Demo.usual) Demo.fresh
           Demo.boot (mkRECT 0 0 1280 720) Demo.boot
           Demo.good_controller Demo.boot Demo.the_engine Demo.the_view);
    reflexivity.
Defined.

Lemma OnCreate_outcome_witness :
  exists fc e v,
    flutter_controller_ (window Demo.created) = Some fc /\
    engine fc = Some e /\ view fc = Some v.
Proof.
  destruct (OnCreate_outcome (P := Demo.platform Demo.usual) Demo.fresh)
    as (b & s' & Hrun & _ & _ & Hready).
  change (OnCreate (P := Demo.platform Demo.usual) Demo.fresh)
    with (Done (S := State nat) true Demo.created) in Hrun.
  injection Hrun as <- <-. exact (Hready eq_refl).
Defined.

Lemma OnCreate_size_witness :
  exists b s' fc,
    OnCreate (P := Demo.platform Demo.usual) Demo.fresh = Done b s' /\
    In (Called (FlutterViewController_new (1280 - 0) (720 - 0) "data") fc)
       (log s').
Proof.
  apply (OnCreate_size (P := Demo.platform Demo.usual) Demo.fresh
           Demo.boot (mkRECT 0 0 1280 720) Demo.boot).
  - reflexivity.
  - reflexivity.
  - cbn. lia.
  - cbn. lia.
Defined.

Lemma OnCreate_OnDestroy_witness :
  exists s2,
    OnDestroy (P := Demo.platform Demo.usual) Demo.created = Done tt s2 /\
    window s2 = window Demo.fresh.
Proof.
  destruct (OnCreate_OnDestroy (P := Demo.platform Demo.usual)
              Demo.fresh true Demo.created)
    as (s2 & Hrun & Hwindow & _).
  - reflexivity.
  - reflexivity.
  - now exists s2.
Defined.

Lemma hover_is_last_call_witness :
  maximum_button_hover_
    (window
       (Demo.after
          (enter_all (P := Demo.platform Demo.usual)
             ([Enter_OnCreate; Enter_method_call "maximumButtonExit"] ++
              Enter_method_call "maximumButtonEnter" ::
              [Enter_MessageHandler 0x2048 0x000F 0 0;
               Enter_method_call "maximumButtonToggle";
               Enter_OnDestroy]))
          Demo.fresh))
  = true.
Proof.
  apply (hover_is_last_call (P := Demo.platform Demo.usual)
           [Enter_OnCreate; Enter_method_call "maximumButtonExit"]
           (Enter_method_call "maximumButtonEnter")
           [Enter_MessageHandler 0x2048 0x000F 0 0;
            Enter_method_call "maximumButtonToggle";
            Enter_OnDestroy]
           true Demo.fresh).
  - reflexivity.
  - repeat constructor.
  - vm_compute. reflexivity.
Defined.

Lemma run_keeps_owned_witness :
  project_ (window Demo.painted) = "data" /\
  flutter_controller_ (window Demo.painted) = Some Demo.good_controller.
Proof.
  destruct (run_keeps_owned (P := Demo.platform Demo.usual)
              [Enter_method_call "maximumButtonExit";
               Enter_MessageHandler 0x2048 0x000F 0 0]
              Demo.created Demo.painted)
    as [Hproject Hcontroller].
  - vm_compute. reflexivity.
  - split; [exact Hproject |].
    apply Hcontroller. repeat constructor; discriminate.
Defined.

Lemma controllers_balanced_witness :
  count_events is_new
    (log (Demo.after
            (enter_all (P := Demo.platform Demo.usual)
               [Enter_OnCreate; Enter_OnCreate;
                Enter_MessageHandler 0x2048 0x000F 0 0; Enter_OnDestroy])
            Demo.fresh))
  = Nat.add
      (count_events is_delete
         (log (Demo.after
                 (enter_all (P := Demo.platform Demo.usual)
                    [Enter_OnCreate; Enter_OnCreate;
                     Enter_MessageHandler 0x2048 0x000F 0 0;
                     Enter_OnDestroy])
                 Demo.fresh)))
      (held (window
               (Demo.after
                  (enter_all (P := Demo.platform Demo.usual)
                     [Enter_OnCreate; Enter_OnCreate;
                      Enter_MessageHandler 0x2048 0x000F 0 0;
                      Enter_OnDestroy])
                  Demo.fresh))).
Proof.
  apply (controllers_balanced (P := Demo.platform Demo.usual)
           "data" Demo.boot
           [Enter_OnCreate; Enter_OnCreate;
            Enter_MessageHandler 0x2048 0x000F 0 0; Enter_OnDestroy]).
  vm_compute. reflexivity.
Defined.

Lemma fontchange_after_OnCreate_witness :
  exists r s3,
    MessageHandler (P := Demo.platform Demo.usual) 0x2048 WM_FONTCHANGE 0 0
                   Demo.painted = Done r s3.
Proof.
  apply (fontchange_after_OnCreate (P := Demo.platform Demo.usual)
           Demo.fresh Demo.created
           [Enter_method_call "maximumButtonExit";
            Enter_MessageHandler 0x2048 0x000F 0 0]
           Demo.painted).
  - reflexivity.
  - repeat constructor; discriminate.
  - vm_compute. reflexivity.
Defined.
